(** * Meeting-notes summarizer: a shallow embedding of [app.py]

    The application is a thin Flask layer: a recipient parser, a file text
    extractor, an SMTP mail sender and three route handlers.  Pure helpers
    are embedded as functions on Python strings (lists of code points);
    the handlers are embedded in a small state-and-exception monad whose
    state holds the upload directory and a log of the observable effects
    (flashes, file writes, library and network calls). *)

From Stdlib Require Import NArith ZArith Lia Bool.
From Stdlib Require Import String Ascii.
From stdpp Require Import base option list gmap.

Local Open Scope N_scope.

(** ** Python strings *)

(** A [str] is a sequence of Unicode code points. *)
Definition char := N.
Definition str := list char.

(** Reading an ASCII literal of the source as a [str]. *)
Definition py (s : string) : str :=
  List.map N_of_ascii (list_ascii_of_string s).

Arguments py : simpl never.

Definition LF : char := 10.
Definition CR : char := 13.

Module PyStr.

(** [str.isspace] on one code point; the same table drives [str.strip]
    and the [\s] class of [re] on text patterns. *)
Definition isspace (c : char) : bool :=
  ((9 <=? c) && (c <=? 13)) || ((28 <=? c) && (c <=? 32))
  || (c =? 133) || (c =? 160) || (c =? 5760)
  || ((8192 <=? c) && (c <=? 8202))
  || (c =? 8232) || (c =? 8233) || (c =? 8239) || (c =? 8287)
  || (c =? 12288).

(** The line boundaries of [str.splitlines]. *)
Definition islinebreak (c : char) : bool :=
  ((10 <=? c) && (c <=? 13)) || ((28 <=? c) && (c <=? 30))
  || (c =? 133) || (c =? 8232) || (c =? 8233).

Fixpoint lstrip (s : str) : str :=
  match s with
  | c :: s' => if isspace c then lstrip s' else s
  | [] => []
  end.

Definition rstrip (s : str) : str := rev (lstrip (rev s)).

(** [s.strip()] *)
Definition strip (s : str) : str := rstrip (lstrip s).

(** [sep.join(parts)] *)
Fixpoint join (sep : str) (parts : list str) : str :=
  match parts with
  | [] => []
  | [p] => p
  | p :: ps => p ++ sep ++ join sep ps
  end.

(** [s.splitlines()]: [cur] is the line being read; a carriage return
    directly followed by a line feed is one boundary; no empty last line
    is produced after a final boundary. *)
Fixpoint splitlines_go (cur : str) (s : str) : list str :=
  match s with
  | [] => match cur with [] => [] | _ => [cur] end
  | c :: s' =>
      if islinebreak c then
        cur :: match s' with
               | c' :: s'' =>
                   if (c =? CR) && (c' =? LF)
                   then splitlines_go [] s''
                   else splitlines_go [] s'
               | [] => []
               end
      else splitlines_go (cur ++ [c]) s'
  end.

Definition splitlines (s : str) : list str := splitlines_go [] s.

(** [needle in s] for a one-character needle. *)
Definition contains (c : char) (s : str) : bool :=
  existsb (N.eqb c) s.

(** [s.rsplit(sep, 1)] for a one-character separator: the text before
    the last separator and the text after it, or the whole text alone
    when the separator does not occur.  [rsplit1_go] returns the split of
    the text read so far. *)
Fixpoint rsplit1_go (c : char) (s : str) : option (str * str) :=
  match s with
  | [] => None
  | x :: s' =>
      match rsplit1_go c s' with
      | Some (before, after) => Some (x :: before, after)
      | None => if x =? c then Some ([], s') else None
      end
  end.

Definition rsplit1 (c : char) (s : str) : list str :=
  match rsplit1_go c s with
  | Some (before, after) => [before; after]
  | None => [s]
  end.

End PyStr.

(** Python truthiness of a string: [if s] / [if not s]. *)
Definition truthy (s : str) : bool :=
  match s with [] => false | _ :: _ => true end.

(** [a or b] on strings. *)
Definition str_or (a b : str) : str := if truthy a then a else b.

(** ** The fragment of [re] that the source uses *)

Module Re.

(** Members of a bracket expression: a literal character or [\s]. *)
Inductive cls_item :=
| CChar (c : char)
| CSpace.

Definition item_mem (i : cls_item) (c : char) : bool :=
  match i with
  | CChar x => c =? x
  | CSpace => PyStr.isspace c
  end.

(** [[...]] or, with [negated], [[^...]]. *)
Record cls := Cls { negated : bool; items : list cls_item }.

Definition cls_mem (k : cls) (c : char) : bool :=
  xorb (negated k) (existsb (fun i => item_mem i c) (items k)).

Inductive regex :=
| RNone
| REps
| RSet (k : cls)
| RCat (r1 r2 : regex)
| RAlt (r1 r2 : regex)
| RStar (r : regex).

(** [r+] and an (escaped) literal character. *)
Definition RPlus (r : regex) : regex := RCat r (RStar r).
Definition RLit (c : char) : regex := RSet (Cls false [CChar c]).

Fixpoint nullable (r : regex) : bool :=
  match r with
  | RNone => false
  | REps => true
  | RSet _ => false
  | RCat r1 r2 => nullable r1 && nullable r2
  | RAlt r1 r2 => nullable r1 || nullable r2
  | RStar _ => true
  end.

(** What is left of [r] after reading [c]. *)
Fixpoint deriv (c : char) (r : regex) : regex :=
  match r with
  | RNone => RNone
  | REps => RNone
  | RSet k => if cls_mem k c then REps else RNone
  | RCat r1 r2 =>
      if nullable r1
      then RAlt (RCat (deriv c r1) r2) (deriv c r2)
      else RCat (deriv c r1) r2
  | RAlt r1 r2 => RAlt (deriv c r1) (deriv c r2)
  | RStar r1 => RCat (deriv c r1) (RStar r1)
  end.

(** Does [r] match the whole of [s]? *)
Fixpoint fullmatch (r : regex) (s : str) : bool :=
  match s with
  | [] => nullable r
  | c :: s' => fullmatch (deriv c r) s'
  end.

(** [re.compile("^" body "$").match(s)] as a truth value: the body
    matches from the start of [s] up to its end, or up to a line feed
    that is the last character of [s] (where [$] also matches). *)
Definition match_anchored (body : regex) (s : str) : bool :=
  fullmatch body s
  || match rev s with
     | c :: before => (c =? LF) && fullmatch body (rev before)
     | [] => false
     end.

(** [re.split("[...]+", s)]: every maximal run of characters of the
    class is one separator; the pieces between separators are returned,
    with an empty piece before a leading and after a trailing separator.
    [in_run] tells that the previous character was a separator and [cur]
    is the piece being read. *)
Fixpoint split_plus_go (k : cls) (in_run : bool) (cur : str) (s : str)
  : list str :=
  match s with
  | [] => [cur]
  | c :: s' =>
      if cls_mem k c then
        if in_run then split_plus_go k true [] s'
        else cur :: split_plus_go k true [] s'
      else split_plus_go k false (cur ++ [c]) s'
  end.

Definition split_plus (k : cls) (s : str) : list str :=
  split_plus_go k false [] s.

End Re.

(** ** Module-level configuration of [app.py] *)

Definition UPLOAD_FOLDER : str := py "uploads".
Definition ALLOWED_EXTENSIONS : list str := [py "txt"; py "pdf"; py "docx"].

Definition DOT : char := 46.
Definition AT : char := 64.

(** [[^@\s]] *)
Definition NOT_AT_SPACE : Re.cls := Re.Cls true [Re.CChar AT; Re.CSpace].

(** The body of [EMAIL_REGEX], between [^] and [$]: [[^@\s]+@[^@\s]+\.[^@\s]+] *)
Definition EMAIL_REGEX : Re.regex :=
  Re.RCat (Re.RPlus (Re.RSet NOT_AT_SPACE))
    (Re.RCat (Re.RLit AT)
       (Re.RCat (Re.RPlus (Re.RSet NOT_AT_SPACE))
          (Re.RCat (Re.RLit DOT)
             (Re.RPlus (Re.RSet NOT_AT_SPACE))))).

(** [[,\n;\r]] *)
Definition RECIPIENT_SEPS : Re.cls :=
  Re.Cls false [Re.CChar 44; Re.CChar LF; Re.CChar 59; Re.CChar CR].

(** Values read from the environment when the module is loaded. *)
Record Config := {
  GROQ_API_KEY : str;
  SMTP_HOST : str;
  SMTP_PORT : Z;
  SMTP_USERNAME : str;
  SMTP_PASSWORD : str;
  env_EMAIL_FROM : option str
}.

(** [groq_client = Groq(api_key=GROQ_API_KEY) if GROQ_API_KEY else None];
    [true] stands for a client object. *)
Definition groq_client (cfg : Config) : bool := truthy (GROQ_API_KEY cfg).

Definition EMAIL_FROM (cfg : Config) : str :=
  default (str_or (SMTP_USERNAME cfg) (py "no-reply@example.com"))
          (env_EMAIL_FROM cfg).

(** ** Recipient parser *)

(** [raw] is [None] when the caller passes Python's [None]. *)
Definition parse_recipients (raw : option str) : list str :=
  match raw with
  | None => []
  | Some raw =>
      if negb (truthy raw) then []
      else
        let parts := Re.split_plus RECIPIENT_SEPS raw in
        let emails :=
          List.map PyStr.strip
            (List.filter (fun p => truthy (PyStr.strip p)) parts) in
        let valid := List.filter (Re.match_anchored EMAIL_REGEX) emails in
        valid
  end.

(** ** Exceptions, files and the outside world *)

(** The exceptions that occur; [exn_str] is [str(e)].  Every one of them
    is an [Exception], so [except Exception] catches them all. *)
Inductive exn :=
| RuntimeError (msg : str)
| IndexError (msg : str)
| FileNotFoundError (msg : str)
| LibraryError (msg : str).

Definition exn_str (e : exn) : str :=
  match e with
  | RuntimeError m | IndexError m | FileNotFoundError m | LibraryError m => m
  end.

Definition bytes := list N.

(** What [page.extract_text()] does on one page of a PDF. *)
Inductive page :=
| PageText (t : option str)
| PageRaises (e : exn).

(** The message assembled by [send_email_smtp]. *)
Record email_message := {
  msg_From : str;
  msg_To : str;
  msg_Subject : str;
  msg_content : str;
  msg_html : str
}.

(** Calls on [smtplib]: the constructors [SMTP_SSL(host, port)] and
    [SMTP(host, port, timeout=...)], and the methods of the server object. *)
Inductive smtp_call :=
| Smtp_SSL (host : str) (port : Z)
| Smtp_plain (host : str) (port : Z) (timeout : Z)
| Smtp_ehlo
| Smtp_starttls
| Smtp_login (user password : str)
| Smtp_send_message (m : email_message)
| Smtp_quit.

(** A chat message: role and content. *)
Definition chat_message : Type := str * str.

(** The observable effects of a request, in the order they happen. *)
Inductive event :=
| Flash (msg : str)
| FileSave (path : str)
| FileOpen (path : str)
| GroqCreate (model : str) (messages : list chat_message)
| Net (c : smtp_call).

(** The libraries and services the application calls.  Their results are
    not determined by [app.py]; each is an arbitrary function here. *)
Record Runtime := {
  (** [str.lower] *)
  str_lower : str -> str;
  (** [werkzeug.utils.secure_filename] *)
  secure_filename : str -> str;
  (** reading a file opened with [encoding="utf-8", errors="ignore"] *)
  utf8_decode_ignore : bytes -> str;
  (** [PyPDF2.PdfReader(f).pages], with what text extraction does on each *)
  pdf_pages : bytes -> exn + list page;
  (** the paragraph texts of [docx.Document(path)] *)
  docx_paragraphs : bytes -> exn + list str;
  (** [groq_client.chat.completions.create(...)]: the contents of the
      returned choices, or an exception *)
  groq_create : list chat_message -> exn + list str;
  (** header and body assignment on an [EmailMessage] may be refused *)
  email_refused : email_message -> option exn;
  (** whether a call on [smtplib] raises, given what happened before *)
  smtp_raises : list event -> smtp_call -> option exn
}.

(** The upload directory and the effects so far. *)
Record state := {
  fs : gmap str bytes;
  log : list event
}.

Definition emit (e : event) (st : state) : state :=
  {| fs := fs st; log := log st ++ [e] |}.

(** ** Computations that read and write the state and may raise *)

Definition M (A : Type) : Type := state -> (exn + A) * state.

Definition ret {A} (a : A) : M A := fun st => (inr a, st).
Definition raise {A} (e : exn) : M A := fun st => (inl e, st).

Definition bind {A B} (m : M A) (k : A -> M B) : M B :=
  fun st =>
    match m st with
    | (inr a, st') => k a st'
    | (inl e, st') => (inl e, st')
    end.

(** [try: body / except Exception as e: handler e] *)
Definition try_except {A} (body : M A) (handler : exn -> M A) : M A :=
  fun st =>
    match body st with
    | (inr a, st') => (inr a, st')
    | (inl e, st') => handler e st'
    end.

(** [try: body / finally: cleanup]: the cleanup always runs; when it
    raises, its exception is the one that propagates. *)
Definition try_finally {A} (body : M A) (cleanup : M unit) : M A :=
  fun st =>
    match body st with
    | (r, st') =>
        match cleanup st' with
        | (inr _, st'') => (r, st'')
        | (inl e, st'') => (inl e, st'')
        end
    end.

Definition tell (e : event) : M unit := fun st => (inr tt, emit e st).

Declare Scope m_scope.
Delimit Scope m_scope with M.
Notation "x <- m ;; k" := (bind m (fun x => k))
  (at level 100, m at next level, right associativity) : m_scope.
Notation "m ;; k" := (bind m (fun _ => k))
  (at level 100, right associativity) : m_scope.
Local Open Scope m_scope.

(** [flash(msg)] *)
Definition flash (msg : str) : M unit := tell (Flash msg).

(** ** File handling *)

(** [open(path)]: the content of the file, or [FileNotFoundError]. *)
Definition open_file (path : str) : M bytes :=
  tell (FileOpen path) ;;
  fun st =>
    match fs st !! path with
    | Some b => (inr b, st)
    | None => (inl (FileNotFoundError path), st)
    end.

(** [file.save(path)] *)
Definition save_file (path : str) (content : bytes) : M unit :=
  fun st => (inr tt, emit (FileSave path)
                       {| fs := <[path := content]> (fs st); log := log st |}).

(** Lifting a library result. *)
Definition lib {A} (r : exn + A) : M A :=
  match r with
  | inr a => ret a
  | inl e => raise e
  end.

(** [os.path.join(a, b)] *)
Definition path_join (a b : str) : str :=
  match b with
  | 47 :: _ => b
  | _ =>
      match rev a with
      | [] => b
      | 47 :: _ => a ++ b
      | _ => a ++ [47] ++ b
      end
  end.

Definition str_in (s : str) (l : list str) : bool :=
  existsb (fun x => bool_decide (s = x)) l.

Section App.

Variable cfg : Config.
Variable rt : Runtime.

Definition allowed_file (filename : str) : bool :=
  PyStr.contains DOT filename
  && match PyStr.rsplit1 DOT filename !! 1%nat with
     | Some ext => str_in (str_lower rt ext) ALLOWED_EXTENSIONS
     | None => false
     end.

(** The loop over [reader.pages]: a page whose extraction raises is
    skipped; [text] is the list being appended to. *)
Fixpoint pdf_loop (pages : list page) (text : list str) : list str :=
  match pages with
  | [] => text
  | PageText t :: rest => pdf_loop rest (text ++ [str_or (default [] t) []])
  | PageRaises _ :: rest => pdf_loop rest text
  end.

Definition extract_text_from_file (filepath : str) : M str :=
  match PyStr.rsplit1 DOT filepath !! 1%nat with
  | None => raise (IndexError (py "list index out of range"))
  | Some after =>
      let ext := str_lower rt after in
      if bool_decide (ext = py "txt") then
        b <- open_file filepath ;;
        ret (utf8_decode_ignore rt b)
      else if bool_decide (ext = py "pdf") then
        b <- open_file filepath ;;
        pages <- lib (pdf_pages rt b) ;;
        ret (PyStr.join [LF] (pdf_loop pages []))
      else if bool_decide (ext = py "docx") then
        b <- open_file filepath ;;
        paras <- lib (docx_paragraphs rt b) ;;
        ret (PyStr.join [LF] paras)
      else ret []
  end.

(** *** Mail sender *)

(** The object returned by [smtplib.SMTP_SSL(...)] or [smtplib.SMTP(...)]. *)
Inductive server := SslServer | PlainServer.

Definition is_SMTP_SSL (sv : server) : bool :=
  match sv with SslServer => true | PlainServer => false end.

(** One call on [smtplib]: it is logged, then it returns or raises. *)
Definition smtp (c : smtp_call) : M unit :=
  fun st =>
    match smtp_raises rt (log st) c with
    | Some e => (inl e, emit (Net c) st)
    | None => (inr tt, emit (Net c) st)
    end.

Definition SMTP_NOT_CONFIGURED : str :=
  py "SMTP not configured. Set SMTP_HOST, SMTP_USERNAME, SMTP_PASSWORD.".

(** The [EmailMessage] that [send_email_smtp] fills in. *)
Definition compose (subject html_body : str) (recipients : list str)
  : email_message :=
  {| msg_From := EMAIL_FROM cfg;
     msg_To := PyStr.join (py ", ") recipients;
     msg_Subject := subject;
     msg_content :=
       py "This email contains an HTML summary. View with an HTML-capable mail client.";
     msg_html := html_body |}.

Definition send_email_smtp (subject html_body : str) (recipients : list str)
  : M unit :=
  if negb (truthy (SMTP_HOST cfg)) || negb (truthy (SMTP_USERNAME cfg))
     || negb (truthy (SMTP_PASSWORD cfg))
  then raise (RuntimeError SMTP_NOT_CONFIGURED)
  else
    let msg := compose subject html_body recipients in
    match email_refused rt msg with
    | Some e => raise e
    | None =>
        sv <- (if (SMTP_PORT cfg =? 465)%Z
               then smtp (Smtp_SSL (SMTP_HOST cfg) (SMTP_PORT cfg)) ;;
                    ret SslServer
               else smtp (Smtp_plain (SMTP_HOST cfg) (SMTP_PORT cfg) 20) ;;
                    ret PlainServer) ;;
        try_finally
          (smtp Smtp_ehlo ;;
           (if ((SMTP_PORT cfg =? 587)%Z || (SMTP_PORT cfg =? 25)%Z)
               && negb (is_SMTP_SSL sv)
            then smtp Smtp_starttls ;; smtp Smtp_ehlo
            else ret tt) ;;
           smtp (Smtp_login (SMTP_USERNAME cfg) (SMTP_PASSWORD cfg)) ;;
           smtp (Smtp_send_message msg))
          (smtp Smtp_quit)
    end.

(** *** Requests and responses *)

(** A value of [request.form] or of the JSON body: the key is absent,
    or holds JSON [null], or holds text. *)
Inductive field :=
| Absent
| Null
| Text (s : str).

(** [data.get(key, default)] and [data.get(key)] *)
Definition get_default (f : field) (d : str) : option str :=
  match f with
  | Absent => Some d
  | Null => None
  | Text s => Some s
  end.

Definition get (f : field) : option str :=
  match f with
  | Absent | Null => None
  | Text s => Some s
  end.

(** [data.get(key) or d] *)
Definition get_or (f : field) (d : str) : str :=
  match get f with
  | Some s => str_or s d
  | None => d
  end.

(** An entry of [request.files]. *)
Record upload := {
  filename : str;
  content : bytes
}.

(** A field of [request.form] is [None] when the key is absent. *)
Record generate_request := {
  form_prompt : option str;
  form_transcript_text : option str;
  files_transcript_file : option upload
}.

Record send_email_request := {
  is_json : bool;
  data_recipients : field;
  data_subject : field;
  data_edited_summary : field;
  data_edited_summary_html : field;
  data_prompt : field;
  data_transcript : field
}.

Inductive jvalue :=
| JBool (b : bool)
| JStr (s : str).

Inductive response :=
| Redirect (endpoint : string)
| Render (template : string) (context : list (string * str))
| Json (status : Z) (body : list (string * jvalue)).

(** [data.get(key) or None] *)
Definition get_or_None (f : field) : option str :=
  match get f with
  | Some s => if truthy s then Some s else None
  | None => None
  end.

(** [a or b] where [a] may be [None] *)
Definition opt_or (a : option str) (b : str) : str :=
  match a with
  | Some s => str_or s b
  | None => b
  end.

(** *** [/generate] *)

Definition ONLY_SUPPORTED : str :=
  py "Only .txt, .pdf, and .docx files are supported.".
Definition PLEASE_UPLOAD : str := py "Please upload or paste a transcript.".
Definition STUB_MARKER : str :=
  py "Stub summary (Groq not configured):" ++ [LF].
Definition SYSTEM_PROMPT : str :=
  py "You are a concise, accurate meeting summarizer. Output clear, structured summaries.".

(** The [else] branch of the summarization step. *)
Definition stub_summary (transcript : str) : str :=
  let lines :=
    List.map PyStr.strip
      (List.filter (fun l => truthy (PyStr.strip l))
         (PyStr.splitlines transcript)) in
  STUB_MARKER ++ PyStr.join [LF] (take 10 lines).

(** [if file and file.filename != ""]: a file object is true when its
    filename is not empty. *)
Definition file_given (file : option upload) : bool :=
  match file with
  | Some f => truthy (filename f) && negb (bool_decide (filename f = []))
  | None => false
  end.

(** [request.form.get("transcript_text", "").strip()] *)
Definition pasted_transcript (req : generate_request) : str :=
  PyStr.strip (default [] (form_transcript_text req)).

(** The first half of the handler: the transcript, or the response of an
    early [return]. *)
Definition obtain_transcript (req : generate_request) : M (response + str) :=
  match files_transcript_file req with
  | Some file =>
      if file_given (Some file) then
        let filename := secure_filename rt (filename file) in
        if negb (allowed_file filename) then
          flash ONLY_SUPPORTED ;;
          ret (inl (Redirect "index"))
        else
          let save_path := path_join UPLOAD_FOLDER filename in
          save_file save_path (content file) ;;
          transcript <- extract_text_from_file save_path ;;
          ret (inr transcript)
      else ret (inr (pasted_transcript req))
  | None => ret (inr (pasted_transcript req))
  end.

Definition generate (req : generate_request) : M response :=
  let prompt :=
    PyStr.strip (default [] (form_prompt req)) in
  r <- obtain_transcript req ;;
  match r with
  | inl early => ret early
  | inr transcript =>
      if negb (truthy transcript) then
        flash PLEASE_UPLOAD ;;
        ret (Redirect "index")
      else
        let system_message := (py "system", SYSTEM_PROMPT) in
        let user_message :=
          (py "user",
           py "Instruction: " ++ prompt ++ [LF; LF] ++ py "Transcript:"
             ++ [LF] ++ transcript) in
        s <- (if groq_client cfg then
                try_except
                  (tell (GroqCreate (py "llama3-8b-8192")
                           [system_message; user_message]) ;;
                   choices <- lib (groq_create rt
                                     [system_message; user_message]) ;;
                   match choices !! 0%nat with
                   | Some c => ret (inr c)
                   | None =>
                       raise (IndexError (py "list index out of range"))
                   end)
                  (fun e =>
                     flash (py "Error generating summary: " ++ exn_str e) ;;
                     ret (inl (Redirect "index")))
              else ret (inr (stub_summary transcript))) ;;
        match s with
        | inl early => ret early
        | inr summary =>
            ret (Render "result.html"
                   [("summary", summary); ("prompt", prompt);
                    ("transcript", transcript)]%string)
        end
  end.

(** *** [/send_email] *)

Definition NO_VALID_RECIPIENTS : str := py "No valid recipient emails.".

Definition PRE_OPEN : str := py "<pre style='white-space:pre-wrap'>".

(** The handler, with the function bound to the global name
    [send_email_smtp] at the time of the call as [mail_sender]. *)
Definition send_email_with
  (mail_sender : str -> str -> list str -> M unit)
  (req : send_email_request) : M response :=
  let recipients :=
    parse_recipients (get_default (data_recipients req) []) in
  if match recipients with [] => true | _ => false end then
    let msg := NO_VALID_RECIPIENTS in
    if is_json req then
      ret (Json 400 [("ok", JBool false); ("error", JStr msg)]%string)
    else
      flash msg ;;
      ret (Redirect "index")
  else
    let subject := get_or (data_subject req) (py "Meeting Summary") in
    let edited_text := get_or (data_edited_summary req) [] in
    let edited_html := get_or_None (data_edited_summary_html req) in
    let prompt := get_or (data_prompt req) [] in
    let transcript := get_or (data_transcript req) [] in
    let body_html := PRE_OPEN ++ opt_or edited_html edited_text ++ py "</pre>" in
    let body_html :=
      if truthy prompt
      then py "<p><strong>Prompt used:</strong> " ++ prompt ++ py "</p>"
           ++ body_html
      else body_html in
    let body_html :=
      if truthy transcript
      then (body_html ++ py "<hr/><details><summary>Original Transcript</summary>")
           ++ PRE_OPEN ++ transcript ++ py "</pre></details>"
      else body_html in
    r <- try_except
           (mail_sender subject body_html recipients ;;
            ret (inr tt))
           (fun e =>
              let msg := py "Failed to send email: " ++ exn_str e in
              if is_json req then
                ret (inl (Json 500 [("ok", JBool false);
                                    ("error", JStr msg)]%string))
              else
                flash msg ;;
                ret (inl (Redirect "index"))) ;;
    match r with
    | inl early => ret early
    | inr _ =>
        let success :=
          py "Summary sent to: " ++ PyStr.join (py ", ") recipients in
        if is_json req then
          ret (Json 200 [("ok", JBool true); ("message", JStr success)]%string)
        else
          flash success ;;
          ret (Redirect "index")
    end.

Definition send_email (req : send_email_request) : M response :=
  send_email_with send_email_smtp req.

End App.

(** ** A concrete world for running the handlers *)

Module Sample.

(** [str.lower] restricted to ASCII text. *)
Definition ascii_lower (s : str) : str :=
  List.map (fun c => if (65 <=? c) && (c <=? 90) then c + 32 else c) s.

(** A document whose second page cannot be read and whose third page
    has no text. *)
Definition pages : list page :=
  [PageText (Some (py "Agenda"));
   PageRaises (LibraryError (py "unreadable page"));
   PageText None;
   PageText (Some (py "Actions"))].

(** Libraries that do nothing surprising and a network that never fails. *)
Definition rt : Runtime :=
  {| str_lower := ascii_lower;
     secure_filename := fun s => s;
     utf8_decode_ignore := fun b => b;
     pdf_pages := fun _ => inr pages;
     docx_paragraphs := fun _ => inr [];
     groq_create := fun _ => inr [py "summary"];
     email_refused := fun _ => None;
     smtp_raises := fun _ _ => None |}.

(** Nothing set in the environment. *)
Definition cfg_unset : Config :=
  {| GROQ_API_KEY := []; SMTP_HOST := []; SMTP_PORT := 587;
     SMTP_USERNAME := []; SMTP_PASSWORD := []; env_EMAIL_FROM := None |}.

(** A mail account on the submission port, no summarization key. *)
Definition cfg_mail : Config :=
  {| GROQ_API_KEY := []; SMTP_HOST := py "smtp.example.com";
     SMTP_PORT := 587; SMTP_USERNAME := py "notes";
     SMTP_PASSWORD := py "secret"; env_EMAIL_FROM := None |}.

(** The same account with a summarization key. *)
Definition cfg_full : Config :=
  {| GROQ_API_KEY := py "gsk"; SMTP_HOST := py "smtp.example.com";
     SMTP_PORT := 587; SMTP_USERNAME := py "notes";
     SMTP_PASSWORD := py "secret"; env_EMAIL_FROM := None |}.

Definition st0 : state := {| fs := ∅; log := [] |}.

(** Pasted text whose second line is indented. *)
Definition indented : str := py "a" ++ [LF] ++ py " b".

(** An upload next to pasted text. *)
Definition req_upload (name : str) : generate_request :=
  {| form_prompt := Some (py "Summarize");
     form_transcript_text := Some (py "pasted notes");
     files_transcript_file := Some {| filename := name; content := [] |} |}.

Definition req_mail (json : bool) (recipients : str) : send_email_request :=
  {| is_json := json;
     data_recipients := Text recipients;
     data_subject := Absent;
     data_edited_summary := Text (py "Decisions");
     data_edited_summary_html := Null;
     data_prompt := Absent;
     data_transcript := Absent |}.

Definition req_indented : generate_request :=
  {| form_prompt := Some (py "Summarize");
     form_transcript_text := Some indented;
     files_transcript_file := None |}.

(** The upload directory after [minutes.pdf] was saved. *)
Definition st_pdf : state :=
  {| fs := {[ py "uploads/minutes.pdf" := [37; 80; 68; 70] ]}; log := [] |}.

End Sample.

(** ** The wording of the contracts *)

Module Contract.

(** The language of a regular expression. *)
Inductive Matches : Re.regex -> str -> Prop :=
| MEps : Matches Re.REps []
| MSet k c : Re.cls_mem k c = true -> Matches (Re.RSet k) [c]
| MCat r1 r2 s1 s2 :
    Matches r1 s1 -> Matches r2 s2 -> Matches (Re.RCat r1 r2) (s1 ++ s2)
| MAltL r1 r2 s : Matches r1 s -> Matches (Re.RAlt r1 r2) s
| MAltR r1 r2 s : Matches r2 s -> Matches (Re.RAlt r1 r2) s
| MStarNil r : Matches (Re.RStar r) []
| MStarApp r s1 s2 :
    Matches r s1 -> Matches (Re.RStar r) s2 -> Matches (Re.RStar r) (s1 ++ s2).

(** A character that is neither whitespace nor [@]. *)
Definition plain (c : char) : Prop :=
  PyStr.isspace c = false /\ c <> AT.

(** [local@domain.tld]: three non-empty runs of plain characters, the
    first two separated by [@] and the last two by a dot. *)
Definition EmailShaped (s : str) : Prop :=
  exists l d t,
    s = l ++ [AT] ++ d ++ [DOT] ++ t
    /\ l <> [] /\ d <> [] /\ t <> []
    /\ Forall plain l /\ Forall plain d /\ Forall plain t.

(** Comma, semicolon, line feed, carriage return. *)
Definition is_sep (c : char) : bool :=
  (c =? 44) || (c =? 59) || (c =? LF) || (c =? CR).

(** [pieces] are the parts of [s] around its maximal non-empty runs of
    separators: [s] reads piece, run, piece, ..., run, piece. *)
Inductive SplitOnRuns : str -> list str -> Prop :=
| split_last p :
    Forall (fun c => is_sep c = false) p -> SplitOnRuns p [p]
| split_more p run rest ps :
    Forall (fun c => is_sep c = false) p ->
    run <> [] ->
    Forall (fun c => is_sep c = true) run ->
    (forall c, head rest = Some c -> is_sep c = false) ->
    SplitOnRuns rest ps ->
    SplitOnRuns (p ++ run ++ rest) (p :: ps).

(** [t] is [s] without its leading and trailing whitespace. *)
Definition Trimmed (s t : str) : Prop :=
  exists l r,
    s = l ++ t ++ r
    /\ Forall (fun c => PyStr.isspace c = true) l
    /\ Forall (fun c => PyStr.isspace c = true) r
    /\ (forall c, head t = Some c -> PyStr.isspace c = false)
    /\ (forall c, last t = Some c -> PyStr.isspace c = false).

(** [kept] lists, in order and with repetitions, exactly the elements of
    [l] that satisfy [P]. *)
Inductive Keep {A} (P : A -> Prop) : list A -> list A -> Prop :=
| keep_nil : Keep P [] []
| keep_yes x l kept : P x -> Keep P l kept -> Keep P (x :: l) (x :: kept)
| keep_no x l kept : ~ P x -> Keep P l kept -> Keep P (x :: l) kept.

(** [ext] is the part of [path] after its last dot. *)
Definition Extension (path ext : str) : Prop :=
  exists before, path = before ++ [DOT] ++ ext /\ ~ In DOT ext.

(** [name] has an extension that, lowercased, is [txt], [pdf] or [docx]. *)
Definition AllowedName (lower : str -> str) (name : str) : Prop :=
  exists ext, Extension name ext /\ In (lower ext) ALLOWED_EXTENSIONS.

(** A line is blank when it holds nothing but whitespace. *)
Definition blank (l : str) : Prop :=
  Forall (fun c => PyStr.isspace c = true) l.

(** The lines of a transcript that are not blank, in their order. *)
Definition nonblank_lines (transcript : str) : list str :=
  List.filter (fun l => negb (forallb PyStr.isspace l))
    (PyStr.splitlines transcript).

(** The same request with other pasted text. *)
Definition with_transcript_text (req : generate_request)
  (text : option str) : generate_request :=
  {| form_prompt := form_prompt req;
     form_transcript_text := text;
     files_transcript_file := files_transcript_file req |}.

(** The texts of the pages whose extraction returns, a page without
    text counting as the empty text. *)
Definition surviving_texts (pages : list page) : list str :=
  omap (fun p => match p with
                 | PageText t => Some (default [] t)
                 | PageRaises _ => None
                 end) pages.

End Contract.

(** ** The remaining handlers *)

(** [render_template("index.html")] *)
Definition index : M response := ret (Render "index.html" []).

(** What [send_file] is given. *)
Record attachment := {
  att_body : bytes;
  att_as_attachment : bool;
  att_download_name : str;
  att_mimetype : str
}.

Definition NO_SUMMARY : str := py "No summary to download.".

(** [/download]; [encode] is [str.encode("utf-8")], which raises on text
    that has no UTF-8 form. *)
Definition download (encode : str -> exn + bytes)
  (form_edited_summary : option str) : M (response + attachment) :=
  let edited_summary := default [] form_edited_summary in
  if negb (truthy edited_summary) then
    flash NO_SUMMARY ;;
    ret (inl (Redirect "index"))
  else
    body <- lib (encode edited_summary) ;;
    ret (inr {| att_body := body;
                att_as_attachment := true;
                att_download_name := py "meeting_summary.txt";
                att_mimetype := py "text/plain" |}).

(** ** More worlds *)

Module Scenario.

(** Every call on the mail server returns, except [quit]. *)
Definition rt_quit_fails : Runtime :=
  {| str_lower := Sample.ascii_lower;
     secure_filename := fun s => s;
     utf8_decode_ignore := fun b => b;
     pdf_pages := fun _ => inr Sample.pages;
     docx_paragraphs := fun _ => inr [];
     groq_create := fun _ => inl (LibraryError (py "rate limit"));
     email_refused := fun _ => None;
     smtp_raises := fun _ c =>
       match c with
       | Smtp_quit => Some (LibraryError (py "connection lost"))
       | _ => None
       end |}.

(** A document of which no page can be read. *)
Definition rt_bad_pdf : Runtime :=
  {| str_lower := Sample.ascii_lower;
     secure_filename := fun s => s;
     utf8_decode_ignore := fun b => b;
     pdf_pages := fun _ =>
       inr [PageRaises (LibraryError (py "unreadable page"));
            PageRaises (LibraryError (py "unreadable page"))];
     docx_paragraphs := fun _ => inl (LibraryError (py "not a zip file"));
     groq_create := fun _ => inr [];
     email_refused := fun _ => None;
     smtp_raises := fun _ _ => None |}.

(** The upload directory holding a Word document. *)
Definition st_docx : state :=
  {| fs := {[ py "uploads/minutes.docx" := [80; 75; 3; 4] ]}; log := [] |}.

(** An upload with content. *)
Definition req_file (name : str) (content : bytes) : generate_request :=
  {| form_prompt := Some (py " Summarize ");
     form_transcript_text := Some (py "pasted notes");
     files_transcript_file :=
       Some {| filename := name; content := content |} |}.

End Scenario.

(** ** The wording of further properties *)

Module Expect.

(** What reading a stored file with an allowed extension gives: the
    decoded text, the texts of the readable pages, or the paragraphs; or
    the exception of the parsing library. *)
Definition read_back (rt : Runtime) (ext : str) (content : bytes)
  : exn + str :=
  if bool_decide (str_lower rt ext = py "txt") then
    inr (utf8_decode_ignore rt content)
  else if bool_decide (str_lower rt ext = py "pdf") then
    match pdf_pages rt content with
    | inl e => inl e
    | inr pages => inr (PyStr.join [LF] (Contract.surviving_texts pages))
    end
  else
    match docx_paragraphs rt content with
    | inl e => inl e
    | inr paras => inr (PyStr.join [LF] paras)
    end.

(** The two messages of a summarization request. *)
Definition chat (prompt transcript : str) : list chat_message :=
  [(py "system", SYSTEM_PROMPT);
   (py "user",
    py "Instruction: " ++ prompt ++ [LF; LF] ++ py "Transcript:" ++ [LF]
      ++ transcript)].

(** The state after an upload was stored at [path] and opened again. *)
Definition stored (path : str) (content : bytes) (st : state) : state :=
  {| fs := <[path := content]> (fs st);
     log := log st ++ [FileSave path; FileOpen path] |}.

End Expect.

(** * Properties *)

(** ** Regular expressions *)

Section RegexFacts.
Import Re Contract.

Lemma Matches_cat_inv r1 r2 s :
  Matches (RCat r1 r2) s ->
  exists s1 s2, s = s1 ++ s2 /\ Matches r1 s1 /\ Matches r2 s2.
Proof. inversion 1; subst; eauto. Qed.

Lemma Matches_set_inv k s :
  Matches (RSet k) s -> exists c, s = [c] /\ cls_mem k c = true.
Proof. inversion 1; subst; eauto. Qed.

Lemma nullable_Matches r : nullable r = true <-> Matches r [].
Proof.
  induction r; simpl; split; intros H; try discriminate; try reflexivity.
  - inversion H.
  - constructor.
  - inversion H.
  - apply andb_true_iff in H as [H1 H2].
    change (@nil char) with (@nil char ++ []).
    constructor; [apply IHr1 | apply IHr2]; assumption.
  - apply Matches_cat_inv in H as (s1 & s2 & Heq & H1 & H2).
    symmetry in Heq. apply app_eq_nil in Heq as [-> ->].
    apply andb_true_iff; split; [apply IHr1 | apply IHr2]; assumption.
  - apply orb_true_iff in H as [H|H];
      [apply MAltL, IHr1 | apply MAltR, IHr2]; assumption.
  - apply orb_true_iff.
    inversion H; subst; [left; apply IHr1 | right; apply IHr2]; assumption.
  - constructor.
Qed.

(** A non-empty match of a star starts with a non-empty match of its body. *)
Lemma Matches_star_cons r c s :
  Matches (RStar r) (c :: s) ->
  exists s1 s2, s = s1 ++ s2 /\ Matches r (c :: s1) /\ Matches (RStar r) s2.
Proof.
  intros H. remember (RStar r) as r' eqn:Er. remember (c :: s) as w eqn:Ew.
  induction H as [| | | | | |r0 s1 s2 H1 _ H2 IH2]; try discriminate.
  injection Er as ->.
  destruct s1 as [|c1 s1]; simpl in Ew.
  - apply IH2; auto.
  - injection Ew as <- <-. exists s1, s2. auto.
Qed.

Lemma deriv_Matches c r s : Matches (deriv c r) s <-> Matches r (c :: s).
Proof.
  revert s. induction r; intros s; simpl.
  - split; intros H; inversion H.
  - split; intros H; inversion H.
  - destruct (cls_mem k c) eqn:Ek; split; intros H.
    + inversion H; subst. constructor. assumption.
    + inversion H; subst. constructor.
    + inversion H.
    + inversion H; subst. congruence.
  - assert (Hcat : forall s, Matches (RCat (deriv c r1) r2) s ->
                             Matches (RCat r1 r2) (c :: s)).
    { intros s0 H. apply Matches_cat_inv in H as (s1 & s2 & -> & H1 & H2).
      apply IHr1 in H1. change (c :: s1 ++ s2) with ((c :: s1) ++ s2).
      constructor; assumption. }
    assert (Hinv : forall s, Matches (RCat r1 r2) (c :: s) ->
                Matches (RCat (deriv c r1) r2) s
                \/ (Matches r1 [] /\ Matches (deriv c r2) s)).
    { intros s0 H. apply Matches_cat_inv in H as (s1 & s2 & Heq & H1 & H2).
      destruct s1 as [|c1 s1]; simpl in Heq.
      - subst s2. right. split; [assumption | apply IHr2; assumption].
      - injection Heq as -> ->. left. constructor; [apply IHr1|]; assumption. }
    destruct (nullable r1) eqn:En; split; intros H.
    + inversion H; subst; [apply Hcat; assumption|].
      change (c :: s) with ([] ++ c :: s). constructor.
      * apply nullable_Matches; assumption.
      * apply IHr2; assumption.
    + apply Hinv in H as [H|[_ H]]; [apply MAltL | apply MAltR]; assumption.
    + apply Hcat; assumption.
    + apply Hinv in H as [H|[H _]]; [assumption|].
      apply nullable_Matches in H. congruence.
  - split; intros H; inversion H; subst.
    + apply MAltL, IHr1; assumption.
    + apply MAltR, IHr2; assumption.
    + apply MAltL, IHr1; assumption.
    + apply MAltR, IHr2; assumption.
  - split; intros H.
    + apply Matches_cat_inv in H as (s1 & s2 & -> & H1 & H2).
      apply IHr in H1. change (c :: s1 ++ s2) with ((c :: s1) ++ s2).
      constructor; assumption.
    + apply Matches_star_cons in H as (s1 & s2 & -> & H1 & H2).
      constructor; [apply IHr|]; assumption.
Qed.

Lemma fullmatch_Matches r s : fullmatch r s = true <-> Matches r s.
Proof.
  revert r. induction s as [|c s IH]; intros r; simpl.
  - apply nullable_Matches.
  - rewrite IH. apply deriv_Matches.
Qed.

End RegexFacts.

(** ** The address pattern *)

Section EmailPattern.
Import Re Contract.

Lemma cls_mem_plain c : cls_mem NOT_AT_SPACE c = true <-> plain c.
Proof.
  unfold cls_mem, plain, NOT_AT_SPACE; simpl.
  rewrite orb_false_r. destruct (N.eqb_spec c AT) as [->|Hne]; simpl.
  - split; [discriminate | intros [_ H]; congruence].
  - destruct (PyStr.isspace c); split; try discriminate; auto.
    intros [H _]; discriminate.
Qed.

Lemma Matches_star_set k s :
  Matches (RStar (RSet k)) s <-> Forall (fun c => cls_mem k c = true) s.
Proof.
  split.
  - intros H. remember (RStar (RSet k)) as r eqn:Er.
    induction H as [| | | | | |r0 s1 s2 H1 _ _ IH]; try discriminate.
    + constructor.
    + injection Er as ->.
      apply Matches_set_inv in H1 as (c & -> & Hc).
      constructor; auto.
  - induction 1 as [|c s Hc _ IH].
    + constructor.
    + change (c :: s) with ([c] ++ s). constructor; [constructor|]; assumption.
Qed.

Lemma Matches_plus_set k s :
  Matches (RPlus (RSet k)) s
  <-> s <> [] /\ Forall (fun c => cls_mem k c = true) s.
Proof.
  unfold RPlus. split.
  - intros H. apply Matches_cat_inv in H as (s1 & s2 & -> & H1 & H2).
    apply Matches_set_inv in H1 as (c & -> & Hc).
    apply Matches_star_set in H2. split; [discriminate|].
    constructor; assumption.
  - intros [Hne H]. destruct H as [|c s Hc H]; [congruence|].
    change (c :: s) with ([c] ++ s).
    constructor; [constructor; assumption | apply Matches_star_set; assumption].
Qed.

Lemma Matches_lit c s : Matches (RLit c) s <-> s = [c].
Proof.
  unfold RLit. split.
  - intros H. apply Matches_set_inv in H as (c' & -> & Hc).
    unfold cls_mem in Hc; simpl in Hc. rewrite orb_false_r in Hc.
    apply N.eqb_eq in Hc. congruence.
  - intros ->. constructor. unfold cls_mem; simpl.
    rewrite N.eqb_refl. reflexivity.
Qed.

Lemma Forall_plain s :
  Forall (fun c => cls_mem NOT_AT_SPACE c = true) s <-> Forall plain s.
Proof. apply Forall_iff. intros c. apply cls_mem_plain. Qed.

(** The compiled pattern accepts exactly the address-shaped texts. *)
Lemma EMAIL_REGEX_shaped s : Matches EMAIL_REGEX s <-> EmailShaped s.
Proof.
  unfold EMAIL_REGEX, EmailShaped. split.
  - intros H.
    apply Matches_cat_inv in H as (l & s1 & -> & Hl & H).
    apply Matches_cat_inv in H as (a & s2 & -> & Ha & H).
    apply Matches_cat_inv in H as (d & s3 & -> & Hd & H).
    apply Matches_cat_inv in H as (o & t & -> & Ho & Ht).
    apply Matches_lit in Ha as ->. apply Matches_lit in Ho as ->.
    apply Matches_plus_set in Hl as [? Hl], Hd as [? Hd], Ht as [? Ht].
    apply Forall_plain in Hl, Hd, Ht.
    exists l, d, t. auto 10.
  - intros (l & d & t & -> & ? & ? & ? & Hl & Hd & Ht).
    apply Forall_plain in Hl, Hd, Ht.
    repeat constructor; try (apply Matches_plus_set; split; assumption);
      apply Matches_lit; reflexivity.
Qed.

(** With the end anchor, a text that ends in a line feed is also
    accepted when the text before the line feed is address-shaped. *)
Lemma match_anchored_EMAIL s :
  match_anchored EMAIL_REGEX s = true
  <-> EmailShaped s \/ exists s', s = s' ++ [LF] /\ EmailShaped s'.
Proof.
  unfold match_anchored. rewrite orb_true_iff, fullmatch_Matches.
  rewrite EMAIL_REGEX_shaped.
  apply or_iff_compat_l.
  destruct (rev s) as [|c before] eqn:Er.
  - split; [discriminate|]. intros (s' & -> & _).
    rewrite rev_app_distr in Er. discriminate.
  - assert (Hs : s = rev before ++ [c]).
    { rewrite <- (rev_involutive s), Er. reflexivity. }
    rewrite andb_true_iff, N.eqb_eq, fullmatch_Matches, EMAIL_REGEX_shaped.
    split.
    + intros [-> H]. eauto.
    + intros (s' & -> & H). apply app_inj_tail in Hs as [<- <-]. auto.
Qed.

End EmailPattern.

(** ** Trimming and splitting *)

Section StringFacts.
Import Contract.

Lemma last_rev_head {A} (l : list A) : last (rev l) = head l.
Proof. destruct l as [|x l]; simpl; [reflexivity | apply last_snoc]. Qed.

Lemma lstrip_spec s :
  exists l,
    s = l ++ PyStr.lstrip s
    /\ Forall (fun c => PyStr.isspace c = true) l
    /\ (forall c, head (PyStr.lstrip s) = Some c -> PyStr.isspace c = false).
Proof.
  induction s as [|c s (l & Hs & Hl & Hh)]; simpl.
  - exists []. split; [reflexivity|]. split; [constructor | discriminate].
  - destruct (PyStr.isspace c) eqn:Ec.
    + exists (c :: l). simpl. rewrite <- Hs. auto.
    + exists []. split; [reflexivity|]. split; [constructor|].
      simpl. intros c' [= <-]. assumption.
Qed.

Lemma rstrip_spec s :
  exists r,
    s = PyStr.rstrip s ++ r
    /\ Forall (fun c => PyStr.isspace c = true) r
    /\ (forall c, last (PyStr.rstrip s) = Some c -> PyStr.isspace c = false).
Proof.
  unfold PyStr.rstrip.
  destruct (lstrip_spec (rev s)) as (l & Hs & Hl & Hh).
  exists (rev l). split; [|split].
  - rewrite <- rev_app_distr, <- Hs, rev_involutive. reflexivity.
  - apply Forall_rev. assumption.
  - intros c. rewrite last_rev_head. apply Hh.
Qed.

Lemma strip_Trimmed s : Trimmed s (PyStr.strip s).
Proof.
  unfold PyStr.strip.
  destruct (lstrip_spec s) as (l & Hs & Hl & Hh).
  destruct (rstrip_spec (PyStr.lstrip s)) as (r & Hu & Hr & Ht).
  exists l, r. split; [|split; [|split; [|split]]]; try assumption.
  - rewrite <- Hu. assumption.
  - intros c Hc. apply Hh. rewrite Hu.
    destruct (PyStr.rstrip (PyStr.lstrip s)); [discriminate | exact Hc].
Qed.

Lemma lstrip_blank s : blank s -> PyStr.lstrip s = [].
Proof.
  induction 1 as [|c s Hc _ IH]; simpl; [reflexivity|].
  rewrite Hc. assumption.
Qed.

(** A line strips to nothing exactly when it is blank. *)
Lemma strip_nil_blank s : PyStr.strip s = [] <-> blank s.
Proof.
  split.
  - intros H. destruct (strip_Trimmed s) as (l & r & Hs & Hl & Hr & _).
    rewrite H in Hs. rewrite Hs. apply Forall_app; auto.
  - intros H. unfold PyStr.strip. rewrite lstrip_blank by assumption.
    reflexivity.
Qed.

Lemma truthy_nil (s : str) : truthy s = false <-> s = [].
Proof. destruct s; simpl; split; congruence. Qed.

Lemma truthy_cons (s : str) : truthy s = true <-> s <> [].
Proof. destruct s; simpl; split; congruence. Qed.

Lemma cls_mem_seps c : Re.cls_mem RECIPIENT_SEPS c = is_sep c.
Proof.
  unfold Re.cls_mem, is_sep, RECIPIENT_SEPS; simpl.
  destruct (c =? 44), (c =? LF), (c =? 59), (c =? CR); reflexivity.
Qed.

(** Both modes of the splitting loop at once: outside a run the pieces
    split [cur ++ s]; inside a run the rest of the run is skipped first. *)
Lemma split_plus_go_spec s :
  (forall cur,
      Forall (fun c => is_sep c = false) cur ->
      SplitOnRuns (cur ++ s) (Re.split_plus_go RECIPIENT_SEPS false cur s))
  /\ (exists run rest,
         s = run ++ rest
         /\ Forall (fun c => is_sep c = true) run
         /\ (forall c, head rest = Some c -> is_sep c = false)
         /\ SplitOnRuns rest (Re.split_plus_go RECIPIENT_SEPS true [] s)).
Proof.
  induction s as [|c s [IH1 (run & rest & Hs & Hrun & Hrest & IH2)]].
  - split.
    + intros cur Hcur. simpl. rewrite app_nil_r. constructor. assumption.
    + exists [], []. simpl. repeat split; try constructor; try discriminate.
      constructor.
  - simpl. rewrite cls_mem_seps. destruct (is_sep c) eqn:Ec; split.
    + intros cur Hcur. subst s.
      change (cur ++ c :: run ++ rest) with (cur ++ (c :: run) ++ rest).
      constructor; auto.
    + exists (c :: run), rest. subst s. auto.
    + intros cur Hcur.
      replace (cur ++ c :: s) with ((cur ++ [c]) ++ s)
        by (rewrite <- app_assoc; reflexivity).
      apply IH1. apply Forall_app; auto.
    + exists [], (c :: s). simpl. repeat split; try constructor.
      * intros c' [= <-]. assumption.
      * apply (IH1 [c]). auto.
Qed.

Lemma split_plus_SplitOnRuns s :
  SplitOnRuns s (Re.split_plus RECIPIENT_SEPS s).
Proof.
  unfold Re.split_plus. apply (proj1 (split_plus_go_spec s) []). constructor.
Qed.

(** A trimmed token that the pattern accepts is address-shaped: it
    cannot end in the line feed that the end anchor tolerates. *)
Lemma match_anchored_strip p :
  Re.match_anchored EMAIL_REGEX (PyStr.strip p) = true
  <-> EmailShaped (PyStr.strip p).
Proof.
  rewrite match_anchored_EMAIL. split; [|auto].
  intros [H|(t & Ht & _)]; [assumption|].
  destruct (strip_Trimmed p) as (_ & _ & _ & _ & _ & _ & Hlast).
  specialize (Hlast LF). rewrite Ht, last_snoc in Hlast.
  discriminate (Hlast eq_refl).
Qed.

(** Filtering the trimmed pieces as the parser does keeps exactly the
    non-empty address-shaped tokens. *)
Lemma filter_Keep pieces :
  Keep (fun t => t <> [] /\ EmailShaped t)
    (List.map PyStr.strip pieces)
    (List.filter (Re.match_anchored EMAIL_REGEX)
       (List.map PyStr.strip
          (List.filter (fun p => truthy (PyStr.strip p)) pieces))).
Proof.
  induction pieces as [|p pieces IH]; simpl; [constructor|].
  destruct (truthy (PyStr.strip p)) eqn:Et; simpl.
  - destruct (Re.match_anchored EMAIL_REGEX (PyStr.strip p)) eqn:Em.
    + apply keep_yes; [|assumption]. split.
      * apply truthy_cons. assumption.
      * apply match_anchored_strip. assumption.
    + apply keep_no; [|assumption]. intros [_ H].
      apply match_anchored_strip in H. congruence.
  - apply keep_no; [|assumption]. intros [H _].
    apply truthy_nil in Et. contradiction.
Qed.

End StringFacts.

(** ** Recipient parser *)

(** C1: [parse_recipients] returns the empty list for absent or empty
    input; otherwise the input is split on runs of comma, semicolon, line
    feed and carriage return, every piece is trimmed, and the result lists
    in order and with repetitions exactly the non-empty trimmed tokens of
    the shape [local@domain.tld]; the example of the specification
    evaluates to its three valid addresses. *)
Theorem parse_recipients_contract :
  parse_recipients None = []
  /\ parse_recipients (Some []) = []
  /\ (forall raw,
        exists pieces tokens,
          Contract.SplitOnRuns raw pieces
          /\ Forall2 Contract.Trimmed pieces tokens
          /\ Contract.Keep (fun t => t <> [] /\ Contract.EmailShaped t)
               tokens (parse_recipients (Some raw)))
  /\ parse_recipients
       (Some (py "a@b.com, c@d.com; bad-email" ++ [LF] ++ py "e@f.co"))
     = [py "a@b.com"; py "c@d.com"; py "e@f.co"].
Proof.
  split; [reflexivity|]. split; [reflexivity|]. split; [|vm_compute; reflexivity].
  intros raw.
  exists (Re.split_plus RECIPIENT_SEPS raw),
         (List.map PyStr.strip (Re.split_plus RECIPIENT_SEPS raw)).
  split; [apply split_plus_SplitOnRuns|]. split.
  - induction (Re.split_plus RECIPIENT_SEPS raw); simpl; constructor;
      [apply strip_Trimmed | assumption].
  - unfold parse_recipients. destruct raw as [|c raw].
    + simpl. apply Contract.keep_no; [|constructor]. intros [H _]. apply H.
      reflexivity.
    + change (negb (truthy (c :: raw))) with false. cbv iota.
      apply filter_Keep.
Qed.

(** ** Mail sender *)

Section MailSender.

Variable cfg : Config.
Variable rt : Runtime.

(** C3: when the host, the user name or the password is empty,
    [send_email_smtp] raises the configuration error at once, whatever
    the subject, body and recipients: the state is returned as it was, so
    no connection was opened and nothing was logged. *)
Theorem send_email_smtp_unconfigured subject html_body recipients st :
  SMTP_HOST cfg = [] \/ SMTP_USERNAME cfg = [] \/ SMTP_PASSWORD cfg = [] ->
  send_email_smtp cfg rt subject html_body recipients st
  = (inl (RuntimeError SMTP_NOT_CONFIGURED), st).
Proof.
  intros H. unfold send_email_smtp.
  destruct H as [-> | [-> | ->]]; simpl;
    rewrite ?orb_true_r; reflexivity.
Qed.

(** The calls on the network are appended to the log one by one. *)
Ltac run_smtp :=
  repeat match goal with
    | |- context [smtp_raises rt ?l ?c] =>
        destruct (smtp_raises rt l c) eqn:?; simpl
    end.

(** C7: the port alone selects the connection: port 465 opens an
    implicit-TLS connection and never upgrades it; any other port opens
    a plain connection; STARTTLS is requested only on ports 587 and 25,
    and there, once the connection and the first EHLO have succeeded, it
    is the next call, before the login. *)
Theorem smtp_connection_strategy subject html_body recipients st :
  SMTP_HOST cfg <> [] -> SMTP_USERNAME cfg <> [] -> SMTP_PASSWORD cfg <> [] ->
  email_refused rt (compose cfg subject html_body recipients) = None ->
  exists connect rest,
    log (send_email_smtp cfg rt subject html_body recipients st).2
    = log st ++ Net connect :: rest
    /\ (SMTP_PORT cfg = 465%Z ->
        connect = Smtp_SSL (SMTP_HOST cfg) 465
        /\ ~ In (Net Smtp_starttls) rest)
    /\ (SMTP_PORT cfg <> 465%Z ->
        connect = Smtp_plain (SMTP_HOST cfg) (SMTP_PORT cfg) 20)
    /\ (In (Net Smtp_starttls) rest ->
        SMTP_PORT cfg = 587%Z \/ SMTP_PORT cfg = 25%Z)
    /\ (smtp_raises rt (log st) connect = None ->
        smtp_raises rt (log st ++ [Net connect]) Smtp_ehlo = None ->
        SMTP_PORT cfg = 587%Z \/ SMTP_PORT cfg = 25%Z ->
        exists rest',
          rest = Net Smtp_ehlo :: Net Smtp_starttls :: rest'
          /\ ~ In (Net Smtp_starttls) rest').
Proof.
  intros Hh Hu Hp Hm. unfold send_email_smtp.
  apply truthy_cons in Hh, Hu, Hp. rewrite Hh, Hu, Hp, Hm. simpl.
  unfold bind, try_finally, smtp, ret.
  destruct (Z.eqb_spec (SMTP_PORT cfg) 465) as [E465|N465].
  - rewrite E465. simpl. run_smtp.
    all: rewrite <- ?app_assoc; simpl; do 2 eexists; (split; [reflexivity|]).
    all: split; [intros _; split; [reflexivity|simpl; intuition discriminate]|].
    all: split; [intros ?; congruence|].
    all: split; [simpl; intuition discriminate|].
    all: intros _ _ [?|?]; discriminate.
  - destruct (Z.eqb_spec (SMTP_PORT cfg) 587) as [E587|N587];
      destruct (Z.eqb_spec (SMTP_PORT cfg) 25) as [E25|N25]; simpl; run_smtp.
    all: rewrite <- ?app_assoc; simpl; do 2 eexists; (split; [reflexivity|]).
    all: split; [intros ?; congruence|].
    all: split; [intros _; reflexivity|].
    all: split;
      [intros HIn;
       first [left; assumption | right; assumption
             | simpl in HIn; intuition discriminate]|].
    all: intros Hc He Hport; try congruence; try (destruct Hport; congruence).
    all: eexists; split; [reflexivity|simpl; intuition discriminate].
Qed.

End MailSender.

Lemma send_email_smtp_unconfigured_witness :
  send_email_smtp Sample.cfg_unset Sample.rt (py "Notes") (py "<p>hi</p>")
    [py "a@b.com"] Sample.st0
  = (inl (RuntimeError SMTP_NOT_CONFIGURED), Sample.st0).
Proof.
  apply (send_email_smtp_unconfigured Sample.cfg_unset Sample.rt).
  left. reflexivity.
Defined.

(** ** File text extractor *)

Section Extractor.
Import Contract.

Variable rt : Runtime.

Lemma rsplit1_go_absent c s : ~ In c s -> PyStr.rsplit1_go c s = None.
Proof.
  induction s as [|x s IH]; simpl; [reflexivity|].
  intros H. rewrite IH by tauto.
  destruct (N.eqb_spec x c); [tauto | reflexivity].
Qed.

Lemma rsplit1_go_last c before after :
  ~ In c after ->
  PyStr.rsplit1_go c (before ++ [c] ++ after) = Some (before, after).
Proof.
  intros H. induction before as [|x before IH]; simpl.
  - rewrite rsplit1_go_absent by assumption. rewrite N.eqb_refl. reflexivity.
  - simpl in IH. rewrite IH. reflexivity.
Qed.

(** [filepath.rsplit(".", 1)[1]] is the extension. *)
Lemma rsplit1_Extension path ext :
  Extension path ext -> PyStr.rsplit1 DOT path !! 1%nat = Some ext.
Proof.
  intros (before & -> & H). unfold PyStr.rsplit1.
  rewrite rsplit1_go_last by assumption. reflexivity.
Qed.

Lemma pdf_loop_surviving pages text :
  pdf_loop pages text = text ++ surviving_texts pages.
Proof.
  revert text. induction pages as [|[t|e] pages IH]; intros text; simpl.
  - rewrite app_nil_r. reflexivity.
  - rewrite IH, <- app_assoc. unfold str_or.
    destruct t as [[|c t]|]; reflexivity.
  - apply IH.
Qed.

Lemma not_allowed_ext ext :
  ~ In ext ALLOWED_EXTENSIONS ->
  bool_decide (ext = py "txt") = false
  /\ bool_decide (ext = py "pdf") = false
  /\ bool_decide (ext = py "docx") = false.
Proof.
  intros H. repeat split; apply bool_decide_eq_false; intros ->; apply H;
    simpl; auto.
Qed.

(** C4, as the code has it: a path that has an extension outside
    [txt], [pdf] and [docx] yields the empty text, raises nothing and
    touches nothing. *)
Theorem extract_unsupported_extension path ext st :
  Extension path ext ->
  ~ In (str_lower rt ext) ALLOWED_EXTENSIONS ->
  extract_text_from_file rt path st = (inr [], st).
Proof.
  intros Hext Hno. unfold extract_text_from_file.
  rewrite (rsplit1_Extension _ _ Hext).
  destruct (not_allowed_ext _ Hno) as (-> & -> & ->). reflexivity.
Qed.

(** C5: on a PDF that opens, pages whose extraction raises are skipped
    and nothing is raised: the result is the texts of the other pages, in
    document order, joined by line feeds. *)
Theorem extract_pdf_skips_failing_pages path ext content pages st :
  Extension path ext ->
  str_lower rt ext = py "pdf" ->
  fs st !! path = Some content ->
  pdf_pages rt content = inr pages ->
  extract_text_from_file rt path st
  = (inr (PyStr.join [LF] (surviving_texts pages)), emit (FileOpen path) st).
Proof.
  intros Hext Hpdf Hfile Hpages. unfold extract_text_from_file.
  rewrite (rsplit1_Extension _ _ Hext), Hpdf. simpl.
  unfold bind, open_file, bind, tell. simpl. rewrite Hfile, Hpages. simpl.
  rewrite pdf_loop_surviving. reflexivity.
Qed.

Lemma rsplit1_go_Some c s before after :
  PyStr.rsplit1_go c s = Some (before, after) ->
  s = before ++ [c] ++ after /\ ~ In c after.
Proof.
  revert before. induction s as [|x s IH]; simpl; intros before H.
  - discriminate.
  - destruct (PyStr.rsplit1_go c s) as [[b a]|] eqn:E.
    + injection H as <- <-. destruct (IH b eq_refl) as [-> Hno]. auto.
    + destruct (N.eqb_spec x c) as [->|]; [|discriminate].
      injection H as <- <-. split; [reflexivity|].
      clear IH. induction s as [|y s IHs]; simpl in *; [tauto|].
      destruct (PyStr.rsplit1_go c s) as [[b a]|]; [discriminate|].
      destruct (N.eqb_spec y c); [discriminate|].
      intros [?|?]; [congruence | tauto].
Qed.

Lemma Extension_rsplit1 path ext :
  PyStr.rsplit1 DOT path !! 1%nat = Some ext -> Extension path ext.
Proof.
  unfold PyStr.rsplit1.
  destruct (PyStr.rsplit1_go DOT path) as [[b a]|] eqn:E; [|discriminate].
  intros [= <-]. exists b. apply rsplit1_go_Some. assumption.
Qed.

Lemma str_in_In s l : str_in s l = true <-> In s l.
Proof.
  unfold str_in. rewrite existsb_exists. split.
  - intros (x & Hx & Heq). apply bool_decide_eq_true in Heq. congruence.
  - intros H. exists s. split; [assumption|].
    apply bool_decide_eq_true. reflexivity.
Qed.

(** [allowed_file] accepts exactly the names with an allowed extension. *)
Lemma allowed_file_iff name :
  allowed_file rt name = true <-> AllowedName (str_lower rt) name.
Proof.
  unfold allowed_file, AllowedName. split.
  - intros H. apply andb_true_iff in H as [_ H].
    destruct (PyStr.rsplit1 DOT name !! 1%nat) as [ext|] eqn:E;
      [|discriminate].
    exists ext. split; [apply Extension_rsplit1; assumption|].
    apply str_in_In. assumption.
  - intros (ext & Hext & Hin).
    rewrite (rsplit1_Extension _ _ Hext).
    apply andb_true_iff. split; [|apply str_in_In; assumption].
    destruct Hext as (before & -> & _). unfold PyStr.contains.
    apply existsb_exists. exists DOT. split; [|reflexivity].
    apply in_or_app. right. left. reflexivity.
Qed.

End Extractor.

(** C4, as worded, fails on a path without a dot: such a path has no
    extension at all, yet the extractor raises [IndexError] on it. *)
Lemma extract_dotless_raises :
  ~ (forall rt path st,
        (forall ext, Contract.Extension path ext ->
                     ~ In (str_lower rt ext) ALLOWED_EXTENSIONS) ->
        extract_text_from_file rt path st = (inr [], st)).
Proof.
  intros H.
  specialize (H Sample.rt (py "README") Sample.st0).
  assert (Hraise : extract_text_from_file Sample.rt (py "README") Sample.st0
                   = (inl (IndexError (py "list index out of range")),
                      Sample.st0)) by reflexivity.
  rewrite Hraise in H.
  assert (Hno : forall ext, Contract.Extension (py "README") ext ->
                            ~ In (str_lower Sample.rt ext) ALLOWED_EXTENSIONS).
  { intros ext (before & Heq & _) _.
    assert (Hin : In DOT (py "README")).
    { rewrite Heq. apply in_or_app. right. left. reflexivity. }
    vm_compute in Hin. intuition discriminate. }
  specialize (H Hno). discriminate H.
Qed.

Lemma extract_unsupported_extension_witness :
  extract_text_from_file Sample.rt (py "uploads/notes.md") Sample.st0
  = (inr [], Sample.st0).
Proof.
  apply (extract_unsupported_extension Sample.rt _ (py "md")).
  - exists (py "uploads/notes"). split; [reflexivity|].
    vm_compute. intuition discriminate.
  - vm_compute. intuition discriminate.
Defined.

Lemma extract_pdf_skips_failing_pages_witness :
  extract_text_from_file Sample.rt (py "uploads/minutes.pdf") Sample.st_pdf
  = (inr (py "Agenda" ++ [LF] ++ [] ++ [LF] ++ py "Actions"),
     emit (FileOpen (py "uploads/minutes.pdf")) Sample.st_pdf).
Proof.
  apply (extract_pdf_skips_failing_pages Sample.rt _ (py "pdf")
           [37; 80; 68; 70] Sample.pages).
  - exists (py "uploads/minutes"). split; [reflexivity|].
    vm_compute. intuition discriminate.
  - reflexivity.
  - apply lookup_singleton_eq.
  - reflexivity.
Defined.

(** ** [/generate] *)

Section Generate.
Import Contract.

Variable cfg : Config.
Variable rt : Runtime.

Lemma forallb_isspace_blank l : forallb PyStr.isspace l = true <-> blank l.
Proof. unfold blank. rewrite forallb_forall, List.Forall_forall. tauto. Qed.

Lemma truthy_strip_nonblank l :
  truthy (PyStr.strip l) = negb (forallb PyStr.isspace l).
Proof.
  destruct (forallb PyStr.isspace l) eqn:E; simpl.
  - apply truthy_nil, strip_nil_blank, forallb_isspace_blank. assumption.
  - apply truthy_cons. intros H.
    apply strip_nil_blank, forallb_isspace_blank in H. congruence.
Qed.

(** The stub keeps the non-blank lines and trims each of them. *)
Lemma stub_summary_lines transcript :
  stub_summary transcript
  = STUB_MARKER
    ++ PyStr.join [LF]
         (take 10 (List.map PyStr.strip (nonblank_lines transcript))).
Proof.
  unfold stub_summary, nonblank_lines. do 4 f_equal.
  apply List.filter_ext. intros l. apply truthy_strip_nonblank.
Qed.

(** C2, as the code has it: without a summarization key, every request
    that reaches the summarization step is answered with the stub: the
    marker, then the non-blank lines of the transcript, each trimmed of
    its leading and trailing whitespace, in their order, at most the
    first ten, joined by line feeds.  The example of the specification
    yields the lines line1, line2, line3. *)
Theorem generate_stub_summary req st transcript st1 :
  groq_client cfg = false ->
  obtain_transcript rt req st = (inr (inr transcript), st1) ->
  transcript <> [] ->
  generate cfg rt req st
  = (inr (Render "result.html"
            [("summary"%string,
              STUB_MARKER
              ++ PyStr.join [LF]
                   (take 10 (List.map PyStr.strip
                               (nonblank_lines transcript))));
             ("prompt"%string, PyStr.strip (default [] (form_prompt req)));
             ("transcript"%string, transcript)]), st1)
  /\ stub_summary (py "line1" ++ [LF; LF] ++ py "line2" ++ [LF] ++ py "line3")
     = STUB_MARKER ++ py "line1" ++ [LF] ++ py "line2" ++ [LF] ++ py "line3".
Proof.
  intros Hno Hobtain Hne. split; [|vm_compute; reflexivity].
  unfold generate, bind. rewrite Hobtain.
  apply truthy_cons in Hne. rewrite Hne, Hno. simpl.
  rewrite stub_summary_lines. reflexivity.
Qed.

(** C9: with no uploaded file (or one without a filename) and no pasted
    text left after trimming, the handler flashes the request for a
    transcript and redirects to the input page; nothing else happens, in
    particular no summarization request is made. *)
Theorem generate_without_input req st :
  (forall file, files_transcript_file req = Some file -> filename file = []) ->
  PyStr.strip (default [] (form_transcript_text req)) = [] ->
  generate cfg rt req st
  = (inr (Redirect "index"), emit (Flash PLEASE_UPLOAD) st).
Proof.
  intros Hfile Htext. unfold generate, bind, obtain_transcript.
  destruct (files_transcript_file req) as [file|] eqn:Ef.
  - unfold file_given. rewrite (Hfile file eq_refl). simpl.
    unfold pasted_transcript. rewrite Htext. reflexivity.
  - simpl. unfold pasted_transcript. rewrite Htext. reflexivity.
Qed.

End Generate.

(** C2, as worded, fails on an indented line: the summary holds the line
    without its indentation, not the line of the transcript. *)
Lemma stub_trims_lines :
  exists summary,
    generate Sample.cfg_unset Sample.rt Sample.req_indented Sample.st0
    = (inr (Render "result.html"
              [("summary"%string, summary); ("prompt"%string, py "Summarize");
               ("transcript"%string, Sample.indented)]), Sample.st0)
    /\ summary = STUB_MARKER ++ py "a" ++ [LF] ++ py "b"
    /\ summary
       <> STUB_MARKER
          ++ PyStr.join [LF] (take 10 (Contract.nonblank_lines Sample.indented)).
Proof.
  eexists. split; [vm_compute; reflexivity|]. split; [reflexivity|].
  vm_compute. discriminate.
Qed.

Lemma generate_stub_summary_witness :
  generate Sample.cfg_unset Sample.rt Sample.req_indented Sample.st0
  = (inr (Render "result.html"
            [("summary"%string, STUB_MARKER ++ py "a" ++ [LF] ++ py "b");
             ("prompt"%string, py "Summarize");
             ("transcript"%string, Sample.indented)]), Sample.st0).
Proof.
  apply (generate_stub_summary Sample.cfg_unset Sample.rt Sample.req_indented
           Sample.st0 Sample.indented Sample.st0).
  - reflexivity.
  - reflexivity.
  - discriminate.
Defined.

Lemma generate_without_input_witness :
  generate Sample.cfg_full Sample.rt
    {| form_prompt := Some (py "Summarize");
       form_transcript_text := Some (py "  ");
       files_transcript_file := Some {| filename := []; content := [] |} |}
    Sample.st0
  = (inr (Redirect "index"), emit (Flash PLEASE_UPLOAD) Sample.st0).
Proof.
  apply (generate_without_input Sample.cfg_full Sample.rt).
  - intros file [= <-]. reflexivity.
  - reflexivity.
Defined.

Section Upload.
Import Contract.

Variable cfg : Config.
Variable rt : Runtime.

Lemma file_given_filename file :
  filename file <> [] -> file_given (Some file) = true.
Proof.
  intros H. unfold file_given. apply andb_true_iff. split.
  - apply truthy_cons. assumption.
  - apply negb_true_iff, bool_decide_eq_false. assumption.
Qed.

(** With a named upload the first half of the handler is the file branch. *)
Lemma obtain_transcript_upload req file :
  files_transcript_file req = Some file ->
  filename file <> [] ->
  obtain_transcript rt req
  = let name := secure_filename rt (filename file) in
    if negb (allowed_file rt name) then
      (flash ONLY_SUPPORTED ;; ret (inl (Redirect "index")))%M
    else
      (save_file (path_join UPLOAD_FOLDER name) (content file) ;;
       transcript <- extract_text_from_file rt (path_join UPLOAD_FOLDER name) ;;
       ret (inr transcript))%M.
Proof.
  intros Hfile Hname. unfold obtain_transcript.
  rewrite Hfile, (file_given_filename _ Hname). reflexivity.
Qed.

Lemma generate_rejects_upload req file st :
  files_transcript_file req = Some file ->
  filename file <> [] ->
  ~ AllowedName (str_lower rt) (secure_filename rt (filename file)) ->
  generate cfg rt req st
  = (inr (Redirect "index"), emit (Flash ONLY_SUPPORTED) st).
Proof.
  intros Hfile Hname Hno. unfold generate, bind.
  rewrite (obtain_transcript_upload _ _ Hfile Hname). cbv zeta.
  destruct (allowed_file rt (secure_filename rt (filename file))) eqn:Ea.
  - apply allowed_file_iff in Ea. contradiction.
  - reflexivity.
Qed.

(** C8: for an upload with a filename, a sanitized name without an
    allowed extension ends the request with the notice and a redirect,
    the upload directory and the rest of the log untouched; so a file
    is written, or opened for parsing, or the directory changed, only
    when the sanitized name has an extension among [txt], [pdf], [docx]. *)
Theorem generate_upload_gate req file st :
  files_transcript_file req = Some file ->
  filename file <> [] ->
  (~ AllowedName (str_lower rt) (secure_filename rt (filename file)) ->
   generate cfg rt req st
   = (inr (Redirect "index"), emit (Flash ONLY_SUPPORTED) st))
  /\ (forall path,
        In (FileSave path) (log (generate cfg rt req st).2)
        \/ In (FileOpen path) (log (generate cfg rt req st).2) ->
        (In (FileSave path) (log st) \/ In (FileOpen path) (log st))
        \/ AllowedName (str_lower rt) (secure_filename rt (filename file)))
  /\ (fs (generate cfg rt req st).2 <> fs st ->
      AllowedName (str_lower rt) (secure_filename rt (filename file))).
Proof.
  intros Hfile Hname.
  split; [apply generate_rejects_upload; assumption|].
  destruct (allowed_file rt (secure_filename rt (filename file))) eqn:Ea.
  - apply allowed_file_iff in Ea. auto.
  - assert (Hno : ~ AllowedName (str_lower rt)
                    (secure_filename rt (filename file))).
    { intros H. apply allowed_file_iff in H. congruence. }
    rewrite (generate_rejects_upload _ _ _ Hfile Hname Hno). simpl. split.
    + intros path [H|H]; apply in_app_or in H as [H|[H|[]]];
        auto; discriminate.
    + intros H. contradiction.
Qed.

(** C10: with a named upload the pasted text plays no part: the
    response and the state are the same whatever the form field holds;
    a name without an allowed extension is rejected with the notice
    about file types, and an allowed file whose extraction returns the
    empty text is rejected with the request for a transcript. *)
Theorem generate_ignores_pasted_text req file st :
  files_transcript_file req = Some file ->
  filename file <> [] ->
  (forall text,
      generate cfg rt (with_transcript_text req text) st
      = generate cfg rt req st)
  /\ (~ AllowedName (str_lower rt) (secure_filename rt (filename file)) ->
      forall text,
        generate cfg rt (with_transcript_text req text) st
        = (inr (Redirect "index"), emit (Flash ONLY_SUPPORTED) st))
  /\ (AllowedName (str_lower rt) (secure_filename rt (filename file)) ->
      forall st2,
        extract_text_from_file rt
          (path_join UPLOAD_FOLDER (secure_filename rt (filename file)))
          (save_file
             (path_join UPLOAD_FOLDER (secure_filename rt (filename file)))
             (content file) st).2
        = (inr [], st2) ->
        forall text,
          generate cfg rt (with_transcript_text req text) st
          = (inr (Redirect "index"), emit (Flash PLEASE_UPLOAD) st2)).
Proof.
  intros Hfile Hname.
  assert (Hsame : forall text,
             generate cfg rt (with_transcript_text req text) st
             = generate cfg rt req st).
  { intros text. unfold generate, bind.
    rewrite (obtain_transcript_upload req file Hfile Hname).
    rewrite (obtain_transcript_upload (with_transcript_text req text) file
               Hfile Hname).
    reflexivity. }
  split; [exact Hsame|]. split.
  - intros Hno text. rewrite Hsame.
    apply generate_rejects_upload with (file := file); assumption.
  - intros Hyes st2 Hextract text. rewrite Hsame.
    apply allowed_file_iff in Hyes.
    unfold generate, bind.
    rewrite (obtain_transcript_upload _ _ Hfile Hname). cbv zeta.
    rewrite Hyes. simpl. unfold bind. simpl in Hextract. simpl.
    rewrite Hextract. reflexivity.
Qed.

End Upload.

Lemma generate_upload_gate_witness :
  generate Sample.cfg_full Sample.rt (Sample.req_upload (py "setup.exe"))
    Sample.st0
  = (inr (Redirect "index"), emit (Flash ONLY_SUPPORTED) Sample.st0).
Proof.
  apply (generate_upload_gate Sample.cfg_full Sample.rt
           (Sample.req_upload (py "setup.exe"))
           {| filename := py "setup.exe"; content := [] |} Sample.st0).
  - reflexivity.
  - discriminate.
  - intros (ext & Hext & Hin).
    apply (rsplit1_Extension (py "setup.exe") ext) in Hext.
    vm_compute in Hext. injection Hext as <-.
    vm_compute in Hin. intuition discriminate.
Defined.

Lemma generate_ignores_pasted_text_witness :
  generate Sample.cfg_full Sample.rt
    (Contract.with_transcript_text (Sample.req_upload (py "notes.txt")) None)
    Sample.st0
  = generate Sample.cfg_full Sample.rt (Sample.req_upload (py "notes.txt"))
      Sample.st0.
Proof.
  refine (proj1 (generate_ignores_pasted_text Sample.cfg_full Sample.rt
                   (Sample.req_upload (py "notes.txt"))
                   {| filename := py "notes.txt"; content := [] |} Sample.st0
                   _ _) None).
  - reflexivity.
  - discriminate.
Defined.

(** ** [/send_email] *)

Section SendEmail.
Import Contract.

Variable cfg : Config.
Variable rt : Runtime.

(** Every address the parser returns has the shape of an address. *)
Lemma parse_recipients_shaped raw r :
  In r (parse_recipients raw) -> EmailShaped r.
Proof.
  unfold parse_recipients. destruct raw as [raw|]; [|intros []].
  destruct (negb (truthy raw)); [intros []|]. cbv zeta.
  intros H. apply List.filter_In in H as [H Hm].
  apply List.in_map_iff in H as (p & <- & _).
  apply match_anchored_strip. assumption.
Qed.

(** C6: when no recipient is valid the handler answers with status 400
    and the error body for a JSON request, or flashes the notice and
    redirects for a form request, whatever function is bound as the mail
    sender: it is not called.  Conversely a call on the mail server is
    logged only when the parser returned at least one address-shaped
    recipient. *)
Theorem send_email_requires_recipient req st :
  (parse_recipients (get_default (data_recipients req) []) = [] ->
   forall mail_sender,
     send_email_with mail_sender req st
     = if is_json req
       then (inr (Json 400 [("ok"%string, JBool false);
                            ("error"%string, JStr NO_VALID_RECIPIENTS)]), st)
       else (inr (Redirect "index"), emit (Flash NO_VALID_RECIPIENTS) st))
  /\ (forall c,
        In (Net c) (log (send_email cfg rt req st).2) ->
        In (Net c) (log st)
        \/ exists r,
             In r (parse_recipients (get_default (data_recipients req) []))
             /\ EmailShaped r).
Proof.
  assert (Hnone :
    parse_recipients (get_default (data_recipients req) []) = [] ->
    forall mail_sender,
      send_email_with mail_sender req st
      = if is_json req
        then (inr (Json 400 [("ok"%string, JBool false);
                             ("error"%string, JStr NO_VALID_RECIPIENTS)]), st)
        else (inr (Redirect "index"), emit (Flash NO_VALID_RECIPIENTS) st)).
  { intros Hnone mail_sender. unfold send_email_with. rewrite Hnone.
    destruct (is_json req); reflexivity. }
  split; [exact Hnone|].
  intros c Hc.
  destruct (parse_recipients (get_default (data_recipients req) []))
    as [|r rs] eqn:Ep.
  - left. unfold send_email in Hc. rewrite (Hnone eq_refl) in Hc.
    destruct (is_json req); simpl in Hc; [assumption|].
    apply in_app_or in Hc as [Hc|[Hc|[]]]; [assumption | discriminate].
  - right. exists r. split; [left; reflexivity|].
    apply (parse_recipients_shaped (get_default (data_recipients req) [])).
    rewrite Ep. left. reflexivity.
Qed.

End SendEmail.

Lemma send_email_requires_recipient_witness :
  send_email Sample.cfg_mail Sample.rt
    (Sample.req_mail true (py "not-an-email")) Sample.st0
  = (inr (Json 400 [("ok"%string, JBool false);
                    ("error"%string, JStr (py "No valid recipient emails."))]),
     Sample.st0).
Proof.
  refine (proj1 (send_email_requires_recipient Sample.cfg_mail Sample.rt
                   (Sample.req_mail true (py "not-an-email")) Sample.st0)
            _ (send_email_smtp Sample.cfg_mail Sample.rt)).
  vm_compute. reflexivity.
Defined.

Lemma smtp_connection_strategy_witness :
  exists connect rest,
    log (send_email_smtp Sample.cfg_mail Sample.rt (py "Notes")
           (py "<p>hi</p>") [py "a@b.com"] Sample.st0).2
    = log Sample.st0 ++ Net connect :: rest
    /\ connect = Smtp_plain (py "smtp.example.com") 587 20
    /\ exists rest',
         rest = Net Smtp_ehlo :: Net Smtp_starttls :: rest'
         /\ ~ In (Net Smtp_starttls) rest'.
Proof.
  destruct (smtp_connection_strategy Sample.cfg_mail Sample.rt (py "Notes")
              (py "<p>hi</p>") [py "a@b.com"] Sample.st0)
    as (connect & rest & Hlog & _ & Hplain & _ & Hup).
  - discriminate.
  - discriminate.
  - discriminate.
  - reflexivity.
  - exists connect, rest. split; [exact Hlog|]. split.
    + apply Hplain. discriminate.
    + apply Hup; [reflexivity | reflexivity | left; reflexivity].
Defined.

(** * Further properties *)

(** ** Recipient parser: what the result is made of *)

Section ParserFacts.
Import Contract.

(** The pieces that survive the first comprehension of the parser. *)
Let kept (pieces : list str) : list str :=
  List.filter (fun p => truthy (PyStr.strip p)) pieces.

Lemma parse_recipients_unfold s :
  parse_recipients (Some s)
  = List.filter (Re.match_anchored EMAIL_REGEX)
      (List.map PyStr.strip (kept (Re.split_plus RECIPIENT_SEPS s))).
Proof. destruct s; reflexivity. Qed.

Lemma kept_cons p pieces : kept (p :: pieces) = kept [p] ++ kept pieces.
Proof. unfold kept. simpl. destruct (truthy (PyStr.strip p)); reflexivity. Qed.

(** Entering the text inside or outside a run only decides whether an
    empty first piece is produced. *)
Lemma split_plus_go_run s :
  kept (Re.split_plus_go RECIPIENT_SEPS true [] s)
  = kept (Re.split_plus_go RECIPIENT_SEPS false [] s).
Proof.
  destruct s as [|c s]; [reflexivity|]. simpl.
  destruct (Re.cls_mem RECIPIENT_SEPS c); reflexivity.
Qed.

Lemma split_plus_go_app a c b :
  is_sep c = true ->
  forall in_run cur,
    (in_run = true -> cur = []) ->
    kept (Re.split_plus_go RECIPIENT_SEPS in_run cur (a ++ c :: b))
    = kept (Re.split_plus_go RECIPIENT_SEPS in_run cur a)
      ++ kept (Re.split_plus_go RECIPIENT_SEPS false [] b).
Proof.
  intros Hc. induction a as [|x a IH]; intros in_run cur Hcur; simpl.
  - rewrite cls_mem_seps, Hc. destruct in_run.
    + rewrite (Hcur eq_refl). simpl. apply split_plus_go_run.
    + rewrite kept_cons, split_plus_go_run. reflexivity.
  - rewrite cls_mem_seps. destruct (is_sep x).
    + destruct in_run.
      * apply IH. reflexivity.
      * rewrite !(kept_cons cur (Re.split_plus_go _ _ _ _)), IH by reflexivity.
        apply app_assoc.
    + apply IH. discriminate.
Qed.

Lemma parse_recipients_sep_app a c b :
  is_sep c = true ->
  parse_recipients (Some (a ++ c :: b))
  = parse_recipients (Some a) ++ parse_recipients (Some b).
Proof.
  intros Hc. rewrite !parse_recipients_unfold. unfold Re.split_plus.
  rewrite (split_plus_go_app a c b Hc false []) by discriminate.
  unfold kept. rewrite List.map_app, List.filter_app. reflexivity.
Qed.

Lemma SplitOnRuns_pieces s pieces :
  SplitOnRuns s pieces ->
  Forall (Forall (fun c => is_sep c = false)) pieces.
Proof. induction 1; constructor; auto. Qed.

Lemma strip_Forall (P : char -> Prop) p :
  Forall P p -> Forall P (PyStr.strip p).
Proof.
  intros H. destruct (strip_Trimmed p) as (l & r & Hp & _).
  rewrite Hp in H. apply Forall_app in H as [_ H].
  apply Forall_app in H as [H _]. exact H.
Qed.

Lemma EmailShaped_no_space r :
  EmailShaped r -> Forall (fun c => PyStr.isspace c = false) r.
Proof.
  intros (l & d & t & -> & _ & _ & _ & Hl & Hd & Ht).
  assert (Hp : forall u, Forall plain u ->
                         Forall (fun c => PyStr.isspace c = false) u).
  { intros u Hu. eapply List.Forall_impl; [|exact Hu]. intros c [H _]. exact H. }
  repeat (apply Forall_app; split); auto; repeat constructor.
Qed.

Lemma plain_count_at u : Forall plain u -> count_occ N.eq_dec u AT = 0%nat.
Proof.
  intros H. apply count_occ_not_In. intros Hin.
  rewrite List.Forall_forall in H. destruct (H AT Hin) as [_ Hne]. congruence.
Qed.

Lemma EmailShaped_one_at r :
  EmailShaped r -> count_occ N.eq_dec r AT = 1%nat.
Proof.
  intros (l & d & t & -> & _ & _ & _ & Hl & Hd & Ht).
  rewrite !count_occ_app.
  pose proof (plain_count_at l Hl) as El.
  pose proof (plain_count_at d Hd) as Ed.
  pose proof (plain_count_at t Ht) as Et.
  unfold char in *. rewrite El, Ed, Et. reflexivity.
Qed.

(** What a returned address is: address-shaped and free of separators. *)
Lemma parse_recipients_valid raw r :
  In r (parse_recipients raw) ->
  EmailShaped r /\ Forall (fun c => is_sep c = false) r.
Proof.
  intros Hin. split; [apply (parse_recipients_shaped raw); assumption|].
  destruct raw as [s|]; [|destruct Hin].
  rewrite parse_recipients_unfold in Hin.
  apply List.filter_In in Hin as [Hin _].
  apply List.in_map_iff in Hin as (p & <- & Hp).
  apply List.filter_In in Hp as [Hp _].
  apply strip_Forall.
  pose proof (SplitOnRuns_pieces _ _ (split_plus_SplitOnRuns s)) as Hall.
  rewrite List.Forall_forall in Hall. apply Hall. assumption.
Qed.

(** X1: every address the parser returns is address-shaped, holds no
    whitespace (so no line feed or carriage return), no comma and no
    semicolon, and exactly one [@]. *)
Theorem parse_recipients_clean raw r :
  In r (parse_recipients raw) ->
  EmailShaped r
  /\ Forall (fun c => PyStr.isspace c = false /\ is_sep c = false) r
  /\ count_occ N.eq_dec r AT = 1%nat.
Proof.
  intros Hin. destruct (parse_recipients_valid raw r Hin) as [Hshape Hsep].
  split; [assumption|]. split; [|apply EmailShaped_one_at; assumption].
  pose proof (EmailShaped_no_space r Hshape) as Hsp.
  rewrite List.Forall_forall in *. auto.
Qed.

Lemma lstrip_head s :
  (forall c, head s = Some c -> PyStr.isspace c = false) ->
  PyStr.lstrip s = s.
Proof.
  destruct s as [|c s]; [reflexivity|]. simpl. intros H.
  rewrite (H c eq_refl). reflexivity.
Qed.

Lemma strip_no_space s :
  Forall (fun c => PyStr.isspace c = false) s -> PyStr.strip s = s.
Proof.
  intros H. unfold PyStr.strip, PyStr.rstrip.
  rewrite (lstrip_head s).
  - rewrite lstrip_head; [apply rev_involutive|].
    apply Forall_rev in H. destruct (rev s) as [|x u]; [discriminate|].
    intros y [= <-]. inversion H; assumption.
  - destruct s as [|x u]; [discriminate|].
    intros y [= <-]. inversion H; assumption.
Qed.

Lemma split_plus_go_sep_free s :
  Forall (fun c => is_sep c = false) s ->
  forall cur, Re.split_plus_go RECIPIENT_SEPS false cur s = [cur ++ s].
Proof.
  induction 1 as [|c s Hc _ IH]; intros cur; simpl.
  - rewrite app_nil_r. reflexivity.
  - rewrite cls_mem_seps, Hc, IH, <- app_assoc. reflexivity.
Qed.

(** An address of the shape the parser returns parses to itself. *)
Lemma parse_recipients_single r :
  EmailShaped r -> Forall (fun c => is_sep c = false) r ->
  parse_recipients (Some r) = [r].
Proof.
  intros Hshape Hsep. rewrite parse_recipients_unfold. unfold Re.split_plus.
  rewrite (split_plus_go_sep_free r Hsep). simpl. unfold kept. simpl.
  rewrite (strip_no_space r (EmailShaped_no_space r Hshape)).
  assert (Hne : truthy r = true).
  { destruct Hshape as (l & d & t & -> & Hl & _). destruct l; [congruence|].
    reflexivity. }
  rewrite Hne. simpl.
  rewrite (strip_no_space r (EmailShaped_no_space r Hshape)).
  assert (Hm : Re.match_anchored EMAIL_REGEX r = true)
    by (apply match_anchored_EMAIL; auto).
  rewrite Hm. reflexivity.
Qed.

(** The piece being read is a prefix of the first piece returned. *)
Lemma split_plus_go_cur s cur :
  Re.split_plus_go RECIPIENT_SEPS false cur s
  = match Re.split_plus_go RECIPIENT_SEPS false [] s with
    | p :: ps => (cur ++ p) :: ps
    | [] => []
    end.
Proof.
  revert cur. induction s as [|c s IH]; intros cur; simpl.
  - rewrite app_nil_r. reflexivity.
  - destruct (Re.cls_mem RECIPIENT_SEPS c).
    + rewrite app_nil_r. reflexivity.
    + rewrite (IH (cur ++ [c])), (IH [c]).
      destruct (Re.split_plus_go RECIPIENT_SEPS false [] s);
        [reflexivity | rewrite <- app_assoc; reflexivity].
Qed.

(** A space in front of the text changes nothing. *)
Lemma parse_recipients_space s :
  parse_recipients (Some (32 :: s)) = parse_recipients (Some s).
Proof.
  rewrite !parse_recipients_unfold. unfold Re.split_plus.
  change (Re.split_plus_go RECIPIENT_SEPS false [] (32 :: s))
    with (Re.split_plus_go RECIPIENT_SEPS false [32] s).
  rewrite split_plus_go_cur.
  destruct (Re.split_plus_go RECIPIENT_SEPS false [] s) as [|p ps];
    [reflexivity|].
  unfold kept. simpl.
  change (PyStr.strip (32 :: p)) with (PyStr.strip p).
  destruct (truthy (PyStr.strip p)); simpl; [|reflexivity].
  change (PyStr.strip (32 :: p)) with (PyStr.strip p). reflexivity.
Qed.

Lemma parse_recipients_join rs :
  Forall (fun r => EmailShaped r /\ Forall (fun c => is_sep c = false) r) rs ->
  parse_recipients (Some (PyStr.join (py ", ") rs)) = rs.
Proof.
  induction 1 as [|r rs [Hshape Hsep] Hrs IH]; [reflexivity|].
  destruct rs as [|r' rs].
  - simpl. apply parse_recipients_single; assumption.
  - change (PyStr.join (py ", ") (r :: r' :: rs))
      with (r ++ 44 :: 32 :: PyStr.join (py ", ") (r' :: rs)).
    rewrite parse_recipients_sep_app by reflexivity.
    rewrite parse_recipients_space, parse_recipients_single by assumption.
    change ([r] ++ ?x) with (r :: x). f_equal. exact IH.
Qed.

(** X2: the list of recipients, joined with [", "] as the handler does for
    the [To] header and for its confirmation, parses back to itself. *)
Theorem parse_recipients_round_trip raw :
  parse_recipients (Some (PyStr.join (py ", ") (parse_recipients raw)))
  = parse_recipients raw.
Proof.
  apply parse_recipients_join. apply List.Forall_forall.
  intros r Hr. apply (parse_recipients_valid raw r Hr).
Qed.

(** X3: a separator between two texts makes the parser work on each side
    on its own: the recipients of the whole are those of the left part
    followed by those of the right part. *)
Theorem parse_recipients_concat a c b :
  Contract.is_sep c = true ->
  parse_recipients (Some (a ++ c :: b))
  = parse_recipients (Some a) ++ parse_recipients (Some b).
Proof. apply parse_recipients_sep_app. Qed.

End ParserFacts.

Lemma parse_recipients_clean_witness :
  Contract.EmailShaped (py "c@d.io")
  /\ Forall (fun c => PyStr.isspace c = false /\ Contract.is_sep c = false)
       (py "c@d.io")
  /\ count_occ N.eq_dec (py "c@d.io") AT = 1%nat.
Proof.
  apply (parse_recipients_clean (Some (py "x, c@d.io"))).
  vm_compute. auto.
Defined.

Lemma parse_recipients_concat_witness :
  parse_recipients (Some (py "a@b.com" ++ 59 :: py "c@d.io"))
  = parse_recipients (Some (py "a@b.com"))
    ++ parse_recipients (Some (py "c@d.io")).
Proof. apply parse_recipients_concat. reflexivity. Defined.

(** ** Mail sender: the course of a delivery *)

Section Delivery.

Variable cfg : Config.
Variable rt : Runtime.

Ltac run_net :=
  repeat (rewrite ?andb_false_r;
          match goal with
          | |- context [smtp_raises rt ?l ?c] =>
              destruct (smtp_raises rt l c) eqn:?; simpl
          end).

(** The calls between the first and the last one, by their number. *)
Ltac split_calls :=
  first [ exists []; split; [reflexivity|]
        | eexists [_]; split; [reflexivity|]
        | eexists [_; _]; split; [reflexivity|]
        | eexists [_; _; _]; split; [reflexivity|]
        | eexists [_; _; _; _]; split; [reflexivity|]
        | eexists [_; _; _; _; _]; split; [reflexivity|] ].

(** The first call of a delivery. *)
Let connect : smtp_call :=
  if (SMTP_PORT cfg =? 465)%Z
  then Smtp_SSL (SMTP_HOST cfg) (SMTP_PORT cfg)
  else Smtp_plain (SMTP_HOST cfg) (SMTP_PORT cfg) 20.

(** X4: a connection that was opened is always closed: when the connect
    call returns, [quit] is the last call of the delivery and the only
    [quit], whichever call raised in between; when the connect call
    raises, its exception propagates and nothing else is called. *)
Theorem smtp_connection_closed subject html_body recipients st :
  SMTP_HOST cfg <> [] -> SMTP_USERNAME cfg <> [] -> SMTP_PASSWORD cfg <> [] ->
  email_refused rt (compose cfg subject html_body recipients) = None ->
  (smtp_raises rt (log st) connect = None ->
   exists calls,
     log (send_email_smtp cfg rt subject html_body recipients st).2
     = log st ++ Net connect :: calls ++ [Net Smtp_quit]
     /\ ~ In (Net Smtp_quit) calls)
  /\ (forall e,
        smtp_raises rt (log st) connect = Some e ->
        send_email_smtp cfg rt subject html_body recipients st
        = (inl e, emit (Net connect) st)).
Proof.
  intros Hh Hu Hp Hm. unfold send_email_smtp, connect.
  apply truthy_cons in Hh, Hu, Hp. rewrite Hh, Hu, Hp, Hm. simpl.
  unfold bind, try_finally, smtp, ret.
  destruct (SMTP_PORT cfg =? 465)%Z; simpl.
  - split.
    + intros Hc. rewrite Hc, andb_false_r. simpl. run_net.
      all: rewrite <- ?app_assoc; simpl.
      all: split_calls; simpl; intuition discriminate.
    + intros e He. rewrite He. reflexivity.
  - split.
    + intros Hc. rewrite Hc. simpl.
      destruct ((SMTP_PORT cfg =? 587)%Z || (SMTP_PORT cfg =? 25)%Z);
        simpl; run_net.
      all: rewrite <- ?app_assoc; simpl.
      all: split_calls; simpl; intuition discriminate.
    + intros e He. rewrite He. reflexivity.
Qed.

Ltac split_before :=
  first [ exists []; eexists; split; [reflexivity|]
        | eexists [_]; eexists; split; [reflexivity|]
        | eexists [_; _]; eexists; split; [reflexivity|]
        | eexists [_; _; _]; eexists; split; [reflexivity|]
        | eexists [_; _; _; _]; eexists; split; [reflexivity|] ].

Ltac case_in H :=
  simpl in H;
  repeat match type of H with
         | _ \/ _ => destruct H as [H|H]; [try discriminate|]
         | False => destruct H
         end.

(** X5: the message is handed to the server only as the call that
    directly follows a login that returned, and it is the composed message;
    and the delivery returns normally only if the message was handed over. *)
Theorem smtp_send_requires_login subject html_body recipients st :
  SMTP_HOST cfg <> [] -> SMTP_USERNAME cfg <> [] -> SMTP_PASSWORD cfg <> [] ->
  email_refused rt (compose cfg subject html_body recipients) = None ->
  exists calls,
    log (send_email_smtp cfg rt subject html_body recipients st).2
    = log st ++ calls
    /\ (forall m,
          In (Net (Smtp_send_message m)) calls ->
          m = compose cfg subject html_body recipients
          /\ exists before after,
               calls
               = before
                 ++ Net (Smtp_login (SMTP_USERNAME cfg) (SMTP_PASSWORD cfg))
                 :: Net (Smtp_send_message m) :: after
               /\ smtp_raises rt (log st ++ before)
                    (Smtp_login (SMTP_USERNAME cfg) (SMTP_PASSWORD cfg))
                  = None)
    /\ ((send_email_smtp cfg rt subject html_body recipients st).1 = inr tt ->
        In (Net (Smtp_send_message (compose cfg subject html_body recipients)))
          calls).
Proof.
  intros Hh Hu Hp Hm. unfold send_email_smtp.
  apply truthy_cons in Hh, Hu, Hp. rewrite Hh, Hu, Hp, Hm. simpl.
  unfold bind, try_finally, smtp, ret.
  destruct (SMTP_PORT cfg =? 465)%Z; simpl; rewrite ?andb_false_r;
    [|destruct ((SMTP_PORT cfg =? 587)%Z || (SMTP_PORT cfg =? 25)%Z)];
    simpl; run_net.
  all: rewrite <- ?app_assoc in *; simpl in *.
  all: eexists; split; [reflexivity|]; split.
  all: try (intros m Hin; case_in Hin; fail).
  all: try (intros Hr; simpl in Hr; discriminate Hr).
  all: try (intros _; simpl; auto 10; fail).
  all: intros m Hin; case_in Hin; injection Hin as <-.
  all: split; [reflexivity|]; split_before; assumption.
Qed.

Lemma smtp_quit_masks subject html_body recipients st e :
  SMTP_HOST cfg <> [] -> SMTP_USERNAME cfg <> [] -> SMTP_PASSWORD cfg <> [] ->
  email_refused rt (compose cfg subject html_body recipients) = None ->
  (forall l c, c <> Smtp_quit -> smtp_raises rt l c = None) ->
  (forall l, smtp_raises rt l Smtp_quit = Some e) ->
  (send_email_smtp cfg rt subject html_body recipients st).1 = inl e
  /\ In (Net (Smtp_send_message (compose cfg subject html_body recipients)))
       (log (send_email_smtp cfg rt subject html_body recipients st).2).
Proof.
  intros Hh Hu Hp Hm Hok Hquit. unfold send_email_smtp.
  apply truthy_cons in Hh, Hu, Hp. rewrite Hh, Hu, Hp, Hm. simpl.
  unfold bind, try_finally, smtp, ret.
  destruct (SMTP_PORT cfg =? 465)%Z; simpl; rewrite ?andb_false_r;
    [|destruct ((SMTP_PORT cfg =? 587)%Z || (SMTP_PORT cfg =? 25)%Z)];
    simpl; run_net.
  all: try match goal with
         | H : smtp_raises rt _ Smtp_quit = None |- _ =>
             rewrite Hquit in H; discriminate H
         end.
  all: try match goal with
         | H : smtp_raises rt _ ?c = Some _ |- _ =>
             rewrite (Hok _ c) in H by discriminate; discriminate H
         end.
  all: match goal with
       | H : smtp_raises rt _ Smtp_quit = Some _ |- _ =>
           rewrite Hquit in H; injection H as <-
       end.
  all: split; [reflexivity|].
  all: rewrite <- ?app_assoc; simpl; apply in_or_app; right; simpl; auto 10.
Qed.

(** X6: when every call returns except [quit], the delivery still ends
    with the exception of [quit], although the message was handed to the
    server: the cleanup's exception is the one that propagates. *)
Theorem smtp_quit_failure_reported subject html_body recipients st e :
  SMTP_HOST cfg <> [] -> SMTP_USERNAME cfg <> [] -> SMTP_PASSWORD cfg <> [] ->
  email_refused rt (compose cfg subject html_body recipients) = None ->
  (forall l c, c <> Smtp_quit -> smtp_raises rt l c = None) ->
  (forall l, smtp_raises rt l Smtp_quit = Some e) ->
  (send_email_smtp cfg rt subject html_body recipients st).1 = inl e
  /\ In (Net (Smtp_send_message (compose cfg subject html_body recipients)))
       (log (send_email_smtp cfg rt subject html_body recipients st).2).
Proof. apply smtp_quit_masks. Qed.


End Delivery.

Lemma smtp_connection_closed_witness :
  exists calls,
    log (send_email_smtp Sample.cfg_mail Scenario.rt_quit_fails (py "Notes")
           (py "<p>hi</p>") [py "a@b.com"] Sample.st0).2
    = log Sample.st0
      ++ Net (Smtp_plain (py "smtp.example.com") 587 20)
      :: calls ++ [Net Smtp_quit]
    /\ ~ In (Net Smtp_quit) calls.
Proof.
  refine (proj1 (smtp_connection_closed Sample.cfg_mail Scenario.rt_quit_fails
                   (py "Notes") (py "<p>hi</p>") [py "a@b.com"] Sample.st0
                   _ _ _ _) _); try discriminate; reflexivity.
Defined.

Lemma smtp_send_requires_login_witness :
  exists calls,
    log (send_email_smtp Sample.cfg_mail Sample.rt (py "Notes")
           (py "<p>hi</p>") [py "a@b.com"] Sample.st0).2
    = log Sample.st0 ++ calls
    /\ In (Net (Smtp_send_message
                  (compose Sample.cfg_mail (py "Notes") (py "<p>hi</p>")
                     [py "a@b.com"]))) calls.
Proof.
  destruct (smtp_send_requires_login Sample.cfg_mail Sample.rt (py "Notes")
              (py "<p>hi</p>") [py "a@b.com"] Sample.st0)
    as (calls & Hlog & _ & Hsent); try discriminate; try reflexivity.
  exists calls. split; [exact Hlog | apply Hsent; reflexivity].
Defined.

Lemma smtp_quit_failure_reported_witness :
  (send_email_smtp Sample.cfg_mail Scenario.rt_quit_fails (py "Notes")
     (py "<p>hi</p>") [py "a@b.com"] Sample.st0).1
  = inl (LibraryError (py "connection lost")).
Proof.
  refine (proj1 (smtp_quit_failure_reported Sample.cfg_mail
                   Scenario.rt_quit_fails (py "Notes") (py "<p>hi</p>")
                   [py "a@b.com"] Sample.st0 _ _ _ _ _ _ _));
    try discriminate; try reflexivity.
  intros l c Hc. destruct c; try reflexivity. contradiction.
Defined.

(** ** [/send_email]: the delivery and its outcome *)

Section SendEmailOutcome.

Variable cfg : Config.
Variable rt : Runtime.

Lemma send_email_smtp_raises_unconfigured subject html_body recipients st :
  SMTP_HOST cfg = [] \/ SMTP_USERNAME cfg = [] \/ SMTP_PASSWORD cfg = [] ->
  send_email_smtp cfg rt subject html_body recipients st
  = (inl (RuntimeError SMTP_NOT_CONFIGURED), st).
Proof.
  intros [H|[H|H]]; unfold send_email_smtp; rewrite H; simpl;
    rewrite ?orb_true_r; reflexivity.
Qed.

(** X7: with valid recipients but no mail configuration the handler
    reports the configuration error: status 500 with the error text for a
    JSON request, the same text as a flash and a redirect for a form
    request; nothing is sent and the state is otherwise unchanged. *)
Theorem send_email_unconfigured req st :
  SMTP_HOST cfg = [] \/ SMTP_USERNAME cfg = [] \/ SMTP_PASSWORD cfg = [] ->
  parse_recipients (get_default (data_recipients req) []) <> [] ->
  send_email cfg rt req st
  = if is_json req
    then (inr (Json 500
                 [("ok"%string, JBool false);
                  ("error"%string,
                   JStr (py "Failed to send email: " ++ SMTP_NOT_CONFIGURED))]),
          st)
    else (inr (Redirect "index"),
          emit (Flash (py "Failed to send email: " ++ SMTP_NOT_CONFIGURED)) st).
Proof.
  intros Hcfg Hne. unfold send_email, send_email_with.
  destruct (parse_recipients (get_default (data_recipients req) []))
    as [|r rs]; [congruence|].
  cbv zeta. unfold bind, try_except.
  rewrite (send_email_smtp_raises_unconfigured _ _ _ _ Hcfg).
  destruct (is_json req); reflexivity.
Qed.


(** X9: with at least one valid recipient the mail sender is called
    once, on the incoming state, with the subject of the request or
    "Meeting Summary" when there is none, with a body that embeds the HTML
    variant of the summary when it is given and the plain summary
    otherwise, and with the parsed recipients; the response confirms the
    recipients when the call returns and carries the text of the exception
    when it raises. *)
Theorem send_email_delivery mail_sender req st :
  parse_recipients (get_default (data_recipients req) []) <> [] ->
  exists body pre post,
    body
    = pre ++ PRE_OPEN
      ++ match data_edited_summary_html req with
         | Text (c :: html) => c :: html
         | _ => match data_edited_summary req with
                | Text text => text
                | _ => []
                end
         end
      ++ py "</pre>" ++ post
    /\ send_email_with mail_sender req st
       = match
           mail_sender
             match data_subject req with
             | Text (c :: subject) => c :: subject
             | _ => py "Meeting Summary"
             end
             body
             (parse_recipients (get_default (data_recipients req) []))
             st
         with
         | (inr _, st1) =>
             let success :=
               py "Summary sent to: "
               ++ PyStr.join (py ", ")
                    (parse_recipients (get_default (data_recipients req) [])) in
             if is_json req
             then (inr (Json 200 [("ok"%string, JBool true);
                                  ("message"%string, JStr success)]), st1)
             else (inr (Redirect "index"), emit (Flash success) st1)
         | (inl e, st1) =>
             let msg := py "Failed to send email: " ++ exn_str e in
             if is_json req
             then (inr (Json 500 [("ok"%string, JBool false);
                                  ("error"%string, JStr msg)]), st1)
             else (inr (Redirect "index"), emit (Flash msg) st1)
         end.
Proof.
  intros Hne. unfold send_email_with.
  destruct (parse_recipients (get_default (data_recipients req) []))
    as [|r rs] eqn:Ep; [congruence|].
  cbv zeta.
  assert (Hsubject :
    get_or (data_subject req) (py "Meeting Summary")
    = match data_subject req with
      | Text (c :: subject) => c :: subject
      | _ => py "Meeting Summary"
      end).
  { destruct (data_subject req) as [| |[|c s]]; reflexivity. }
  assert (Hcontent :
    opt_or (get_or_None (data_edited_summary_html req))
      (get_or (data_edited_summary req) [])
    = match data_edited_summary_html req with
      | Text (c :: html) => c :: html
      | _ => match data_edited_summary req with
             | Text text => text
             | _ => []
             end
      end).
  { destruct (data_edited_summary_html req) as [| |[|c h]];
      destruct (data_edited_summary req) as [| |[|c' t]]; reflexivity. }
  rewrite Hsubject, Hcontent.
  match goal with
  | |- context [mail_sender _ ?b _] => exists b
  end.
  exists (if truthy (get_or (data_prompt req) [])
          then py "<p><strong>Prompt used:</strong> "
               ++ get_or (data_prompt req) [] ++ py "</p>"
          else []).
  exists (if truthy (get_or (data_transcript req) [])
          then py "<hr/><details><summary>Original Transcript</summary>"
               ++ PRE_OPEN ++ get_or (data_transcript req) []
               ++ py "</pre></details>"
          else []).
  split.
  2: { unfold bind, try_except.
       match goal with
       | |- context [mail_sender ?s ?b ?r st] =>
           destruct (mail_sender s b r st) as [[e|[]] st1]
       end; destruct (is_json req); reflexivity. }
  destruct (truthy (get_or (data_prompt req) []));
    destruct (truthy (get_or (data_transcript req) []));
    rewrite <- ?app_assoc, ?app_nil_r; reflexivity.
Qed.

End SendEmailOutcome.

Lemma send_email_unconfigured_witness :
  send_email Sample.cfg_unset Sample.rt (Sample.req_mail true (py "a@b.com"))
    Sample.st0
  = (inr (Json 500
            [("ok"%string, JBool false);
             ("error"%string,
              JStr (py "Failed to send email: " ++ SMTP_NOT_CONFIGURED))]),
     Sample.st0).
Proof.
  apply (send_email_unconfigured Sample.cfg_unset Sample.rt
           (Sample.req_mail true (py "a@b.com")) Sample.st0).
  - left. reflexivity.
  - vm_compute. discriminate.
Defined.

Lemma send_email_delivery_witness :
  exists body pre post,
    body = pre ++ PRE_OPEN ++ py "Decisions" ++ py "</pre>" ++ post
    /\ send_email Sample.cfg_mail Sample.rt
         (Sample.req_mail true (py "a@b.com; c@d.io")) Sample.st0
       = (inr (Json 200
                 [("ok"%string, JBool true);
                  ("message"%string,
                   JStr (py "Summary sent to: a@b.com, c@d.io"))]),
          (send_email_smtp Sample.cfg_mail Sample.rt (py "Meeting Summary")
             body [py "a@b.com"; py "c@d.io"] Sample.st0).2).
Proof.
  destruct (send_email_delivery (send_email_smtp Sample.cfg_mail Sample.rt)
              (Sample.req_mail true (py "a@b.com; c@d.io")) Sample.st0)
    as (body & pre & post & Hbody & Hrun).
  - vm_compute. discriminate.
  - exists body, pre, post. split; [exact Hbody|].
    unfold send_email. rewrite Hrun.
    change (parse_recipients
              (get_default
                 (data_recipients (Sample.req_mail true (py "a@b.com; c@d.io")))
                 []))
      with [py "a@b.com"; py "c@d.io"].
    change (data_subject (Sample.req_mail true (py "a@b.com; c@d.io")))
      with Absent.
    cbv iota.
    destruct (send_email_smtp Sample.cfg_mail Sample.rt (py "Meeting Summary")
                body [py "a@b.com"; py "c@d.io"] Sample.st0)
      as [[e|u] st1] eqn:Esend; [|reflexivity].
    exfalso. revert Esend. unfold send_email_smtp, bind, try_finally, smtp, ret.
    simpl. discriminate.
Defined.

(** ** Uploads: what is stored and what is read back *)

Section UploadFacts.
Import Contract.

Variable cfg : Config.
Variable rt : Runtime.

(** The path of an upload ends with the sanitized name. *)
Lemma path_join_upload name :
  exists pre, path_join UPLOAD_FOLDER name = pre ++ name.
Proof.
  unfold path_join. destruct name as [|c name].
  - exists (py "uploads/"). reflexivity.
  - destruct (N.eq_dec c 47) as [->|Hne].
    + exists []. reflexivity.
    + exists (py "uploads/").
      assert (E : match c with
                  | 47 => c :: name
                  | _ => UPLOAD_FOLDER ++ [47] ++ c :: name
                  end = UPLOAD_FOLDER ++ [47] ++ c :: name).
      { destruct c as [|p]; [reflexivity|].
        do 6 (destruct p as [p|p|]; try reflexivity). congruence. }
      exact E.
Qed.

Lemma Extension_upload name ext :
  Extension name ext -> Extension (path_join UPLOAD_FOLDER name) ext.
Proof.
  intros (before & -> & Hno). destruct (path_join_upload (before ++ [DOT] ++ ext))
    as (pre & ->).
  exists (pre ++ before). split; [|assumption].
  rewrite <- app_assoc. reflexivity.
Qed.

(** Opening a stored file that has an allowed extension. *)
Lemma extract_stored path ext content st :
  Extension path ext ->
  In (str_lower rt ext) ALLOWED_EXTENSIONS ->
  fs st !! path = Some content ->
  extract_text_from_file rt path st
  = (Expect.read_back rt ext content, emit (FileOpen path) st).
Proof.
  intros Hext Hin Hfile. unfold extract_text_from_file, Expect.read_back.
  rewrite (rsplit1_Extension _ _ Hext).
  unfold bind, open_file, bind, tell, lib, ret, raise. cbn beta iota.
  destruct Hin as [H|[H|[H|[]]]]; rewrite <- H.
  - rewrite !bool_decide_eq_true_2 by reflexivity. simpl. rewrite Hfile.
    reflexivity.
  - rewrite (bool_decide_eq_false_2 (py "pdf" = py "txt")) by discriminate.
    rewrite !bool_decide_eq_true_2 by reflexivity. simpl. rewrite Hfile.
    destruct (pdf_pages rt content) as [e|pages]; [reflexivity|].
    rewrite pdf_loop_surviving. reflexivity.
  - rewrite (bool_decide_eq_false_2 (py "docx" = py "txt")) by discriminate.
    rewrite (bool_decide_eq_false_2 (py "docx" = py "pdf")) by discriminate.
    rewrite !bool_decide_eq_true_2 by reflexivity. simpl. rewrite Hfile.
    destruct (docx_paragraphs rt content) as [e|paras]; reflexivity.
Qed.

(** The first half of [generate] on an upload with an allowed name: the
    file is stored, opened again and read. *)
Lemma obtain_transcript_allowed req file ext st :
  files_transcript_file req = Some file ->
  filename file <> [] ->
  Extension (secure_filename rt (filename file)) ext ->
  In (str_lower rt ext) ALLOWED_EXTENSIONS ->
  obtain_transcript rt req st
  = (match Expect.read_back rt ext (content file) with
     | inl e => inl e
     | inr transcript => inr (inr transcript)
     end,
     Expect.stored
       (path_join UPLOAD_FOLDER (secure_filename rt (filename file)))
       (content file) st).
Proof.
  intros Hfile Hname Hext Hin.
  rewrite (obtain_transcript_upload rt req file Hfile Hname). cbv zeta.
  assert (Ha : allowed_file rt (secure_filename rt (filename file)) = true).
  { apply allowed_file_iff. exists ext. auto. }
  rewrite Ha. simpl. unfold bind, save_file.
  rewrite (extract_stored _ ext (content file));
    [| apply Extension_upload; assumption | assumption
     | apply lookup_insert_eq].
  unfold Expect.stored, emit. simpl. rewrite <- app_assoc. simpl.
  destruct (Expect.read_back rt ext (content file)); reflexivity.
Qed.

(** X10: an uploaded text file is read back as it was sent: without a
    summarization key, the response shows the decoded content of this
    upload as the transcript and its stub summary, and the file is stored
    under the upload directory. *)
Theorem generate_reads_upload_back req file ext st :
  files_transcript_file req = Some file ->
  filename file <> [] ->
  Extension (secure_filename rt (filename file)) ext ->
  str_lower rt ext = py "txt" ->
  groq_client cfg = false ->
  utf8_decode_ignore rt (content file) <> [] ->
  generate cfg rt req st
  = (inr (Render "result.html"
            [("summary"%string,
              stub_summary (utf8_decode_ignore rt (content file)));
             ("prompt"%string, PyStr.strip (default [] (form_prompt req)));
             ("transcript"%string, utf8_decode_ignore rt (content file))]),
     Expect.stored
       (path_join UPLOAD_FOLDER (secure_filename rt (filename file)))
       (content file) st).
Proof.
  intros Hfile Hname Hext Htxt Hno Htext. unfold generate, bind.
  rewrite (obtain_transcript_allowed req file ext st Hfile Hname Hext)
    by (rewrite Htxt; left; reflexivity).
  unfold Expect.read_back. rewrite Htxt.
  rewrite bool_decide_eq_true_2 by reflexivity.
  apply truthy_cons in Htext. rewrite Htext, Hno. reflexivity.
Qed.



Lemma surviving_texts_none pages :
  Forall (fun p => exists e, p = PageRaises e) pages ->
  surviving_texts pages = [].
Proof.
  induction 1 as [|p pages [e ->] _ IH]; [reflexivity|]. exact IH.
Qed.

(** X12: a PDF upload of which no page can be read gives the empty text,
    so the request is answered like one without a transcript: the notice
    asking for a transcript and a redirect, the file staying stored. *)
Theorem generate_unreadable_pdf req file ext pages st :
  files_transcript_file req = Some file ->
  filename file <> [] ->
  Extension (secure_filename rt (filename file)) ext ->
  str_lower rt ext = py "pdf" ->
  pdf_pages rt (content file) = inr pages ->
  Forall (fun p => exists e, p = PageRaises e) pages ->
  generate cfg rt req st
  = (inr (Redirect "index"),
     emit (Flash PLEASE_UPLOAD)
       (Expect.stored
          (path_join UPLOAD_FOLDER (secure_filename rt (filename file)))
          (content file) st)).
Proof.
  intros Hfile Hname Hext Hpdf Hpages Hall. unfold generate, bind.
  rewrite (obtain_transcript_allowed req file ext st Hfile Hname Hext)
    by (rewrite Hpdf; right; left; reflexivity).
  unfold Expect.read_back. rewrite Hpdf.
  rewrite (bool_decide_eq_false_2 (py "pdf" = py "txt")) by discriminate.
  rewrite bool_decide_eq_true_2 by reflexivity.
  rewrite Hpages, (surviving_texts_none pages Hall). reflexivity.
Qed.

End UploadFacts.

Lemma generate_reads_upload_back_witness :
  generate Sample.cfg_unset Sample.rt
    (Scenario.req_file (py "notes.txt") [104; 105]) Sample.st0
  = (inr (Render "result.html"
            [("summary"%string, STUB_MARKER ++ py "hi");
             ("prompt"%string, py "Summarize");
             ("transcript"%string, py "hi")]),
     Expect.stored (py "uploads/notes.txt") [104; 105] Sample.st0).
Proof.
  apply (generate_reads_upload_back Sample.cfg_unset Sample.rt
           (Scenario.req_file (py "notes.txt") [104; 105])
           {| filename := py "notes.txt"; content := [104; 105] |}
           (py "txt") Sample.st0).
  - reflexivity.
  - discriminate.
  - exists (py "notes"). split; [reflexivity|].
    vm_compute. intuition discriminate.
  - reflexivity.
  - reflexivity.
  - discriminate.
Defined.


Lemma generate_unreadable_pdf_witness :
  generate Sample.cfg_full Scenario.rt_bad_pdf
    (Scenario.req_file (py "scan.pdf") [37; 80; 68; 70]) Sample.st0
  = (inr (Redirect "index"),
     emit (Flash PLEASE_UPLOAD)
       (Expect.stored (py "uploads/scan.pdf") [37; 80; 68; 70] Sample.st0)).
Proof.
  apply (generate_unreadable_pdf Sample.cfg_full Scenario.rt_bad_pdf
           (Scenario.req_file (py "scan.pdf") [37; 80; 68; 70])
           {| filename := py "scan.pdf"; content := [37; 80; 68; 70] |}
           (py "pdf")
           [PageRaises (LibraryError (py "unreadable page"));
            PageRaises (LibraryError (py "unreadable page"))]
           Sample.st0).
  - reflexivity.
  - discriminate.
  - exists (py "scan"). split; [reflexivity|].
    vm_compute. intuition discriminate.
  - reflexivity.
  - reflexivity.
  - repeat constructor; eexists; reflexivity.
Defined.

(** ** [/generate]: the summarization step *)

Section Summarization.

Variable cfg : Config.
Variable rt : Runtime.

(** X13: with a summarization key, a request that fails (or an answer
    without any choice) does not escape the handler: after the one
    request made, the error text is flashed and the user is redirected;
    no result page and no stub are produced. *)
Theorem generate_client_error req st transcript st1 e :
  groq_client cfg = true ->
  obtain_transcript rt req st = (inr (inr transcript), st1) ->
  transcript <> [] ->
  groq_create rt
    (Expect.chat (PyStr.strip (default [] (form_prompt req))) transcript)
  = inl e
  \/ (groq_create rt
        (Expect.chat (PyStr.strip (default [] (form_prompt req))) transcript)
      = inr []
      /\ e = IndexError (py "list index out of range")) ->
  generate cfg rt req st
  = (inr (Redirect "index"),
     emit (Flash (py "Error generating summary: " ++ exn_str e))
       (emit (GroqCreate (py "llama3-8b-8192")
                (Expect.chat (PyStr.strip (default [] (form_prompt req)))
                   transcript)) st1)).
Proof.
  intros Hkey Hobtain Hne Hfail. unfold generate, bind. rewrite Hobtain.
  apply truthy_cons in Hne. rewrite Hne, Hkey. cbn [negb].
  unfold try_except, bind, tell, lib. unfold Expect.chat in *.
  destruct Hfail as [H | [H ->]]; rewrite H; reflexivity.
Qed.

(** X14: with a summarization key and an answer, the summary shown is
    the content of the first choice, next to the trimmed instruction and
    the transcript; exactly one request is made, with the system message
    and a user message built from the instruction and the transcript. *)
Theorem generate_client_summary req st transcript st1 first others :
  groq_client cfg = true ->
  obtain_transcript rt req st = (inr (inr transcript), st1) ->
  transcript <> [] ->
  groq_create rt
    (Expect.chat (PyStr.strip (default [] (form_prompt req))) transcript)
  = inr (first :: others) ->
  generate cfg rt req st
  = (inr (Render "result.html"
            [("summary"%string, first);
             ("prompt"%string, PyStr.strip (default [] (form_prompt req)));
             ("transcript"%string, transcript)]),
     emit (GroqCreate (py "llama3-8b-8192")
             (Expect.chat (PyStr.strip (default [] (form_prompt req)))
                transcript)) st1).
Proof.
  intros Hkey Hobtain Hne Hok. unfold generate, bind. rewrite Hobtain.
  apply truthy_cons in Hne. rewrite Hne, Hkey. cbn [negb].
  unfold try_except, bind, tell, lib. unfold Expect.chat in *.
  rewrite Hok. reflexivity.
Qed.

(** X15: a request without a named upload never raises and never touches
    the upload directory: it is answered, the directory is as before, and
    at most two effects are logged, none of them a file access. *)
Theorem generate_pasted_text req st :
  (forall file, files_transcript_file req = Some file -> filename file = []) ->
  exists resp evs,
    generate cfg rt req st
    = (inr resp, {| fs := fs st; log := log st ++ evs |})
    /\ (length evs <= 2)%nat
    /\ forall path, ~ In (FileSave path) evs /\ ~ In (FileOpen path) evs.
Proof.
  intros Hfile.
  assert (Hobtain :
    obtain_transcript rt req st = (inr (inr (pasted_transcript req)), st)).
  { unfold obtain_transcript.
    destruct (files_transcript_file req) as [file|]; [|reflexivity].
    unfold file_given. rewrite (Hfile file eq_refl). reflexivity. }
  unfold generate, bind. rewrite Hobtain.
  unfold try_except, bind, tell, flash, tell, lib, ret, raise, emit.
  destruct st as [dir events]. simpl.
  destruct (truthy (pasted_transcript req)); simpl.
  2: { do 2 eexists. split; [reflexivity|]. simpl. split; [lia|].
       intros path. intuition discriminate. }
  destruct (groq_client cfg); simpl.
  2: { exists (Render "result.html"
                 [("summary"%string, stub_summary (pasted_transcript req));
                  ("prompt"%string,
                   PyStr.strip (default [] (form_prompt req)));
                  ("transcript"%string, pasted_transcript req)]), [].
       rewrite app_nil_r. split; [reflexivity|]. simpl. split; [lia|].
       intros path. tauto. }
  destruct (groq_create rt _) as [e|[|c choices]]; simpl.
  all: rewrite <- ?app_assoc; simpl.
  all: do 2 eexists; split; [reflexivity|]; simpl; split; [lia|].
  all: intros path; intuition discriminate.
Qed.

End Summarization.

Lemma generate_client_error_witness :
  generate Sample.cfg_full Scenario.rt_quit_fails Sample.req_indented
    Sample.st0
  = (inr (Redirect "index"),
     emit (Flash (py "Error generating summary: rate limit"))
       (emit (GroqCreate (py "llama3-8b-8192")
                (Expect.chat (py "Summarize") Sample.indented)) Sample.st0)).
Proof.
  apply (generate_client_error Sample.cfg_full Scenario.rt_quit_fails
           Sample.req_indented Sample.st0 Sample.indented Sample.st0
           (LibraryError (py "rate limit"))).
  - reflexivity.
  - reflexivity.
  - discriminate.
  - left. reflexivity.
Defined.

Lemma generate_client_summary_witness :
  generate Sample.cfg_full Sample.rt Sample.req_indented Sample.st0
  = (inr (Render "result.html"
            [("summary"%string, py "summary");
             ("prompt"%string, py "Summarize");
             ("transcript"%string, Sample.indented)]),
     emit (GroqCreate (py "llama3-8b-8192")
             (Expect.chat (py "Summarize") Sample.indented)) Sample.st0).
Proof.
  apply (generate_client_summary Sample.cfg_full Sample.rt
           Sample.req_indented Sample.st0 Sample.indented Sample.st0
           (py "summary") []).
  - reflexivity.
  - reflexivity.
  - discriminate.
  - reflexivity.
Defined.

Lemma generate_pasted_text_witness :
  exists resp evs,
    generate Sample.cfg_full Sample.rt Sample.req_indented Sample.st0
    = (inr resp, {| fs := fs Sample.st0; log := log Sample.st0 ++ evs |})
    /\ (length evs <= 2)%nat
    /\ forall path, ~ In (FileSave path) evs /\ ~ In (FileOpen path) evs.
Proof.
  apply (generate_pasted_text Sample.cfg_full Sample.rt Sample.req_indented
           Sample.st0).
  intros file H. discriminate H.
Defined.

(** ** File text extractor: the other branches *)

Section ExtractorFacts.
Import Contract.

Variable rt : Runtime.

(** X16: the extractor only reads: it leaves the upload directory as it
    is, and it logs nothing or the one opening of the given path. *)
Theorem extract_reads_only path st :
  fs (extract_text_from_file rt path st).2 = fs st
  /\ (log (extract_text_from_file rt path st).2 = log st
      \/ log (extract_text_from_file rt path st).2
         = log st ++ [FileOpen path]).
Proof.
  unfold extract_text_from_file.
  destruct (PyStr.rsplit1 DOT path !! 1%nat) as [after|]; [|simpl; auto].
  unfold bind, open_file, bind, tell, lib, ret, raise.
  destruct (bool_decide (str_lower rt after = py "txt")); simpl.
  { destruct (fs st !! path); simpl; auto. }
  destruct (bool_decide (str_lower rt after = py "pdf")); simpl.
  { destruct (fs st !! path) as [b|]; simpl; auto.
    destruct (pdf_pages rt b); simpl; auto. }
  destruct (bool_decide (str_lower rt after = py "docx")); simpl; auto.
  destruct (fs st !! path) as [b|]; simpl; auto.
  destruct (docx_paragraphs rt b); simpl; auto.
Qed.

(** X17: a Word document yields its paragraphs in document order, joined
    by line feeds; when the document cannot be parsed, the exception of
    the parser propagates. *)
Theorem extract_docx path ext content st :
  Extension path ext ->
  str_lower rt ext = py "docx" ->
  fs st !! path = Some content ->
  extract_text_from_file rt path st
  = (match docx_paragraphs rt content with
     | inr paras => inr (PyStr.join [LF] paras)
     | inl e => inl e
     end, emit (FileOpen path) st).
Proof.
  intros Hext Hdocx Hfile.
  rewrite (extract_stored rt path ext content st Hext)
    by (try assumption; rewrite Hdocx; right; right; left; reflexivity).
  unfold Expect.read_back. rewrite Hdocx.
  rewrite (bool_decide_eq_false_2 (py "docx" = py "txt")) by discriminate.
  rewrite (bool_decide_eq_false_2 (py "docx" = py "pdf")) by discriminate.
  destruct (docx_paragraphs rt content); reflexivity.
Qed.


(** X19: [allowed_file] looks at nothing but the text after the last dot:
    a name without a dot is refused, and for a name with a dot the answer
    is that of its extension, whatever precedes the last dot. *)
Theorem allowed_file_by_extension :
  (forall name, ~ In DOT name -> allowed_file rt name = false)
  /\ (forall stem ext,
        ~ In DOT ext ->
        allowed_file rt (stem ++ DOT :: ext)
        = str_in (str_lower rt ext) ALLOWED_EXTENSIONS).
Proof.
  split.
  - intros name Hno. unfold allowed_file.
    destruct (PyStr.contains DOT name) eqn:Ec; [|reflexivity].
    unfold PyStr.contains in Ec. apply existsb_exists in Ec as (x & Hx & Heq).
    apply N.eqb_eq in Heq. subst x. contradiction.
  - intros stem ext Hno. unfold allowed_file.
    rewrite (rsplit1_Extension (stem ++ DOT :: ext) ext)
      by (exists stem; auto).
    assert (Hdot : PyStr.contains DOT (stem ++ DOT :: ext) = true).
    { unfold PyStr.contains. apply existsb_exists. exists DOT.
      split; [|reflexivity]. apply in_or_app. right. left. reflexivity. }
    rewrite Hdot. reflexivity.
Qed.

End ExtractorFacts.

Lemma extract_docx_witness :
  extract_text_from_file Scenario.rt_bad_pdf (py "uploads/minutes.docx")
    Scenario.st_docx
  = (inl (LibraryError (py "not a zip file")),
     emit (FileOpen (py "uploads/minutes.docx")) Scenario.st_docx).
Proof.
  apply (extract_docx Scenario.rt_bad_pdf (py "uploads/minutes.docx")
           (py "docx") [80; 75; 3; 4] Scenario.st_docx).
  - exists (py "uploads/minutes"). split; [reflexivity|].
    vm_compute. intuition discriminate.
  - reflexivity.
  - apply lookup_singleton_eq.
Defined.


(** ** [/send_email]: what reaches the mail server *)

Section Headers.
Import Contract.

Variable cfg : Config.
Variable rt : Runtime.



(** X21: a failing [quit] turns a completed delivery into a reported
    failure: when every other call on the server returns, a JSON request
    with a valid recipient is answered with status 500 and the text of the
    exception of [quit], although the message was handed to the server. *)
Theorem send_email_quit_failure req st e :
  SMTP_HOST cfg <> [] -> SMTP_USERNAME cfg <> [] -> SMTP_PASSWORD cfg <> [] ->
  (forall m, email_refused rt m = None) ->
  (forall l c, c <> Smtp_quit -> smtp_raises rt l c = None) ->
  (forall l, smtp_raises rt l Smtp_quit = Some e) ->
  parse_recipients (get_default (data_recipients req) []) <> [] ->
  is_json req = true ->
  (send_email cfg rt req st).1
  = inr (Json 500 [("ok"%string, JBool false);
                   ("error"%string,
                    JStr (py "Failed to send email: " ++ exn_str e))])
  /\ exists m, In (Net (Smtp_send_message m)) (log (send_email cfg rt req st).2).
Proof.
  intros Hh Hu Hp Hm Hok Hquit Hne Hjson. unfold send_email, send_email_with.
  destruct (parse_recipients (get_default (data_recipients req) []))
    as [|r rs]; [congruence|].
  cbv zeta. unfold bind, try_except. rewrite Hjson.
  match goal with
  | |- context [send_email_smtp cfg rt ?s ?b ?r st] =>
      destruct (smtp_quit_masks cfg rt s b r st e Hh Hu Hp (Hm _) Hok Hquit)
        as [Hres Hsent];
      destruct (send_email_smtp cfg rt s b r st) as [[e'|[]] st1]
  end; simpl in Hres; [|discriminate].
  injection Hres as ->. simpl. split; [reflexivity|]. eauto.
Qed.

End Headers.

Lemma send_email_quit_failure_witness :
  (send_email Sample.cfg_mail Scenario.rt_quit_fails
     (Sample.req_mail true (py "a@b.com")) Sample.st0).1
  = inr (Json 500 [("ok"%string, JBool false);
                   ("error"%string,
                    JStr (py "Failed to send email: connection lost"))]).
Proof.
  refine (proj1 (send_email_quit_failure Sample.cfg_mail Scenario.rt_quit_fails
                   (Sample.req_mail true (py "a@b.com")) Sample.st0
                   (LibraryError (py "connection lost")) _ _ _ _ _ _ _ _));
    try discriminate; try reflexivity.
  intros l c Hc. destruct c; try reflexivity. contradiction.
Defined.


(** ** The stub summary and the download *)

Section StubShape.
Import Contract.

Lemma splitlines_go_no_break n :
  forall s cur,
    (length s <= n)%nat ->
    Forall (fun c => PyStr.islinebreak c = false) cur ->
    Forall (Forall (fun c => PyStr.islinebreak c = false))
      (PyStr.splitlines_go cur s).
Proof.
  induction n as [|n IH]; intros s cur Hlen Hcur;
    destruct s as [|c s]; simpl in *; try lia.
  - destruct cur; [constructor | constructor; [assumption | constructor]].
  - destruct cur; [constructor | constructor; [assumption | constructor]].
  - destruct (PyStr.islinebreak c) eqn:Ec.
    + constructor; [assumption|].
      destruct s as [|c' s']; [constructor|].
      destruct ((c =? CR) && (c' =? LF)); apply IH; simpl in *;
        try lia; constructor.
    + apply IH; [lia|]. apply Forall_app. split; [assumption|].
      repeat constructor. assumption.
Qed.

Lemma strip_idempotent p : PyStr.strip (PyStr.strip p) = PyStr.strip p.
Proof.
  destruct (strip_Trimmed p) as (_ & _ & _ & _ & _ & Hhead & Hlast).
  set (t := PyStr.strip p) in *. unfold PyStr.strip at 1, PyStr.rstrip.
  rewrite (lstrip_head t Hhead). rewrite lstrip_head; [apply rev_involutive|].
  intros c Hc. apply Hlast.
  rewrite <- (rev_involutive t), last_rev_head. exact Hc.
Qed.

(** X22: the body of the stub is made of at most ten lines, as many as
    the transcript has non-blank lines when these are fewer; each of them
    is non-empty, has no whitespace at either end and holds no line break,
    so the joined text shows them as separate lines. *)
Theorem stub_summary_shape transcript :
  exists lines,
    stub_summary transcript = STUB_MARKER ++ PyStr.join [LF] lines
    /\ lines = take 10 (List.map PyStr.strip (nonblank_lines transcript))
    /\ length lines = Nat.min 10 (length (nonblank_lines transcript))
    /\ Forall (fun l => l <> []
                        /\ PyStr.strip l = l
                        /\ Forall (fun c => PyStr.islinebreak c = false) l)
         lines.
Proof.
  eexists. split; [apply stub_summary_lines|]. split; [reflexivity|]. split.
  - rewrite length_take, List.length_map. reflexivity.
  - apply Forall_take, List.Forall_forall. intros l Hl.
    apply List.in_map_iff in Hl as (p & <- & Hp).
    unfold nonblank_lines in Hp. apply List.filter_In in Hp as [Hp Hnb].
    split; [|split].
    + apply truthy_cons. rewrite truthy_strip_nonblank. exact Hnb.
    + apply strip_idempotent.
    + apply strip_Forall.
      pose proof (splitlines_go_no_break (length transcript) transcript []
                    (le_n _) (List.Forall_nil _)) as Hall.
      rewrite List.Forall_forall in Hall. apply Hall. exact Hp.
Qed.

(** X23: [/download] answers a missing or empty summary with the notice
    and a redirect and serves nothing; any other summary is served as the
    attachment [meeting_summary.txt] of type [text/plain] whose body is
    its encoding, without a flash or any other effect; a summary that
    cannot be encoded makes the encoder's exception propagate. *)
Theorem download_outcome encode form st :
  (default [] form = [] ->
   download encode form st
   = (inr (inl (Redirect "index")), emit (Flash NO_SUMMARY) st))
  /\ (default [] form <> [] ->
      download encode form st
      = (match encode (default [] form) with
         | inr body =>
             inr (inr {| att_body := body;
                         att_as_attachment := true;
                         att_download_name := py "meeting_summary.txt";
                         att_mimetype := py "text/plain" |})
         | inl e => inl e
         end, st)).
Proof.
  unfold download. split; intros H.
  - rewrite H. reflexivity.
  - apply truthy_cons in H. rewrite H. cbn [negb]. unfold bind, lib.
    destruct (encode (default [] form)); reflexivity.
Qed.

End StubShape.

Lemma download_outcome_witness :
  download (fun s => inr s) (Some (py "Hello")) Sample.st0
  = (inr (inr {| att_body := py "Hello";
                 att_as_attachment := true;
                 att_download_name := py "meeting_summary.txt";
                 att_mimetype := py "text/plain" |}), Sample.st0).
Proof.
  refine (proj2 (download_outcome (fun s => inr s) (Some (py "Hello"))
                   Sample.st0) _).
  discriminate.
Defined.
